(** * pylogutil: structured logging helpers (logutil.py)

    A shallow embedding of the message-formatting and activity-timing core
    of [logutil.py]: the key/value encoder [_format_kvp], the message
    templates [_MESSAGE_FORMATS], the three emitters [event], [start] and
    [end], the decorators [wrap_func] and [wrap_method], and [configure]
    over the YAML loader and [logging.config] as its platform.

    Python strings are [string], integers are [Z], floats are IEEE-754
    binary64 values ([spec_float] with [prec = 53], [emax = 1024]), a
    keyword-argument dictionary is the list of its items in iteration
    order, and the module globals, the clock and the logging backend are
    an explicit world threaded through a state-and-exception monad. *)

From Stdlib Require Import String Ascii List ZArith Lia Bool Permutation.
From Stdlib Require Import Decimal DecimalString.
From Stdlib Require Import SpecFloat.
Import ListNotations.

Local Open Scope string_scope.
Local Open Scope Z_scope.

(** ** Python string primitives *)

Module PyStr.

(** [sub in s] for strings: [sub] occurs in [s] as a substring. *)
Fixpoint contains (sub s : string) : bool :=
  String.prefix sub s ||
  match s with
  | EmptyString => false
  | String _ rest => contains sub rest
  end.

(** [s.replace(old, new)]: every non-overlapping occurrence of [old],
    scanning from the left, becomes [new].  [skip] counts the characters
    of an occurrence that is being consumed.  ([old] is not empty in
    this program.) *)
Fixpoint replace_from (old new s : string) (skip : nat) : string :=
  match s with
  | EmptyString => EmptyString
  | String c rest =>
      match skip with
      | S k => replace_from old new rest k
      | O =>
          if String.prefix old s
          then new ++ replace_from old new rest (Nat.pred (String.length old))
          else String c (replace_from old new rest O)
      end
  end.

Definition replace (old new s : string) : string :=
  replace_from old new s O.

(** [sep.join(l)]. *)
Definition join (sep : string) (l : list string) : string :=
  String.concat sep l.

(** [s.split(c)] for a one-character separator: the pieces between the
    occurrences of [c]; never the empty list. *)
Fixpoint split (c : ascii) (s : string) : list string :=
  match s with
  | EmptyString => [EmptyString]
  | String a rest =>
      if Ascii.eqb a c then EmptyString :: split c rest
      else match split c rest with
           | p :: ps => String a p :: ps
           | [] => [String a EmptyString]
           end
  end.

(** [s.partition(c)]: the text before and after the first [c]; the whole
    text and the empty string when [c] does not occur. *)
Fixpoint partition (c : ascii) (s : string) : string * string :=
  match s with
  | EmptyString => (EmptyString, EmptyString)
  | String a rest =>
      if Ascii.eqb a c then (EmptyString, rest)
      else let (k, v) := partition c rest in (String a k, v)
  end.

(** The characters of a string. *)
Definition chars (s : string) : list ascii := list_ascii_of_string s.

(** [s.startswith(p)]. *)
Definition startswith (p s : string) : bool := String.prefix p s.

(** [s.endswith(suffix)]. *)
Definition endswith (suffix s : string) : bool :=
  let n := String.length s in
  let m := String.length suffix in
  Nat.leb m n && String.eqb (String.substring (n - m) m s) suffix.

End PyStr.

(** ** Values of an attribute set *)

(** A Python float: an IEEE-754 binary64 number. *)
Definition pyfloat : Type := spec_float.

Definition prec64 : Z := 53.
Definition emax64 : Z := 1024.

(** [a - b] on floats. *)
Definition float_sub (a b : pyfloat) : pyfloat := SFsub prec64 emax64 a b.
(** The float nearest to the integer [n]. *)
Definition float_of_Z (n : Z) : pyfloat :=
  binary_normalize prec64 emax64 n 0 false.

(** The values the data model allows in an attribute set. *)
Inductive value : Type :=
| VInt (n : Z)
| VFloat (x : pyfloat)
| VBool (b : bool)
| VStr (s : string)
| VNone.

(** [isinstance(v, six.string_types)]. *)
Definition is_string (v : value) : bool :=
  match v with VStr _ => true | _ => false end.

(** The items of a keyword-argument dictionary [**kvp], in the order
    [d.items()] yields them.  The names are the ones Python binds to the
    [**kvp] parameter, so none of them is a named parameter of the
    function that receives the dictionary.  When the decorators pass
    their own dictionary on with [**kvp], its names are bound again,
    against the parameters of the function called: see
    [end_with_keywords]. *)
Definition AttributeSet : Type := list (string * value).

(** [str(n)] for an integer. *)
Definition str_of_Z (n : Z) : string := NilZero.string_of_int (Z.to_int n).

(** ** Fixed-point rendering of a float: ['{:.6f}'.format(x)] *)

Definition digit_char (d : Z) : ascii := ascii_of_nat (48 + Z.to_nat d).

(** The [n] low decimal digits of [v], most significant first. *)
Fixpoint low_digits (n : nat) (v : Z) (acc : string) : string :=
  match n with
  | O => acc
  | S k => low_digits k (v / 10) (String (digit_char (v mod 10)) acc)
  end.

(** [num / den] rounded to the nearest integer, ties to the even one
    (the rounding of the C library's [printf], which Python uses). *)
Definition round_half_even (num den : Z) : Z :=
  let q := num / den in
  let r := num mod den in
  match 2 * r ?= den with
  | Lt => q
  | Gt => q + 1
  | Eq => if Z.even q then q else q + 1
  end.

(** [m * 2^e * 10^digits] rounded to an integer. *)
Definition scaled_round (digits : nat) (m : positive) (e : Z) : Z :=
  let p := 10 ^ Z.of_nat digits in
  if 0 <=? e then Z.pos m * 2 ^ e * p
  else round_half_even (Z.pos m * p) (2 ^ (- e)).

Definition sign_str (s : bool) : string := if s then "-" else "".

(** The digits of the scaled magnitude [v] with the point put back. *)
Definition fixed_str (digits : nat) (v : Z) : string :=
  let p := 10 ^ Z.of_nat digits in
  match digits with
  | O => str_of_Z v
  | S _ => str_of_Z (v / p) ++ "." ++ low_digits digits (v mod p) ""
  end.

(** ['{:.<digits>f}'.format(x)]. *)
Definition format_fixed (digits : nat) (x : pyfloat) : string :=
  match x with
  | S754_nan => "nan"
  | S754_infinity s => sign_str s ++ "inf"
  | S754_zero s => sign_str s ++ fixed_str digits 0
  | S754_finite s m e => sign_str s ++ fixed_str digits (scaled_round digits m e)
  end.

(** ** Results, exceptions and dictionaries *)

(** The exceptions the modelled code can raise: the three of
    [str.format], the [TypeError] of a call that gives a parameter
    twice, and whatever a wrapped callable raises. *)
Inductive exn : Type :=
| KeyError (key : string)
| IndexError
| ValueError
| TypeError
| Raised (what : string).

Inductive result (A : Type) : Type :=
| Ok (a : A)
| Raise (e : exn).
Arguments Ok {A} a.
Arguments Raise {A} e.

(** An argument with a default that is not [None]: given, or left out. *)
Inductive arg (A : Type) : Type :=
| Given (a : A)
| Omitted.
Arguments Given {A} a.
Arguments Omitted {A}.

Definition or_default {A : Type} (x : arg A) (dflt : A) : A :=
  match x with Given a => a | Omitted => dflt end.

(** [d[key]] on a dictionary with string keys. *)
Fixpoint dict_get {A : Type} (key : string) (d : list (string * A)) : option A :=
  match d with
  | [] => None
  | (k, v) :: rest => if String.eqb k key then Some v else dict_get key rest
  end.

(** [d[key] = v]. *)
Definition dict_set {A : Type} (key : string) (v : A) (d : list (string * A))
  : list (string * A) :=
  (key, v) :: filter (fun kv => negb (String.eqb (fst kv) key)) d.

(** [d] without [key]: what a call leaves for the [**kvp] parameter when
    [key] is the name of another parameter. *)
Definition dict_del {A : Type} (key : string) (d : list (string * A))
  : list (string * A) :=
  filter (fun kv => negb (String.eqb (fst kv) key)) d.

(** ** Constants of the module *)

Definition logging_INFO : Z := 20.

(** between message and key/value section *)
Definition _KVPSECSEP : string := " ; ".
(** between one key=value and another *)
Definition _KVPSEP : string := ",".
(** between key and value *)
Definition _KVSEP : string := "=".

Definition _MESSAGE_FORMATS : list (list (string * string)) :=
  [ [ ("entry", "{func_name}.begin" ++ _KVPSECSEP ++ "{kvp}");
      ("exit", "{func_name}.end ({dur})" ++ _KVPSECSEP ++ "{kvp}");
      ("exit_nodur", "{func_name}.end" ++ _KVPSECSEP ++ "{kvp}");
      ("event", "{func_name}" ++ _KVPSECSEP ++ "{kvp}") ];
    [ ("entry", "{timestamp} {func_name}.begin" ++ _KVPSECSEP ++ "{kvp}");
      ("exit", "{timestamp} {func_name}.end ({dur})" ++ _KVPSECSEP ++ "{kvp}");
      ("exit_nodur", "{func_name}.end" ++ _KVPSECSEP ++ "{kvp}");
      ("event", "{timestamp} {func_name}" ++ _KVPSECSEP ++ "{kvp}") ] ].

(** ** The world: module globals, clock and logging backend *)

(** The two module attributes a caller may reassign. *)
Record Globals : Type := mkGlobals {
  include_timestamp : bool;
  DEFAULT_LEVEL : Z
}.

(** The module as imported. *)
Definition initial_globals : Globals :=
  {| include_timestamp := true; DEFAULT_LEVEL := logging_INFO |}.

(** A logger is known by its name. *)
Definition Logger : Type := string.

(** One call [logger.log(level, msg)] received by the backend. *)
Record Emission : Type := mkEmission {
  em_logger : Logger;
  em_level : Z;
  em_msg : string
}.

Record World : Type := mkWorld {
  globals : Globals;
  (** how many times [time.time()] has been read *)
  clock_reads : nat;
  (** the calls the backend received, oldest first *)
  emitted : list Emission
}.

Definition initial_world : World :=
  {| globals := initial_globals; clock_reads := O; emitted := [] |}.

(** Computations that read and change the world and may raise. *)
Definition M (A : Type) : Type := World -> result A * World.

Definition ret {A : Type} (a : A) : M A := fun w => (Ok a, w).

Definition raise {A : Type} (e : exn) : M A := fun w => (Raise e, w).

Definition bind {A B : Type} (m : M A) (k : A -> M B) : M B :=
  fun w =>
    match m w with
    | (Ok a, w') => k a w'
    | (Raise e, w') => (Raise e, w')
    end.

Notation "x <- m ;; k" := (bind m (fun x => k))
  (at level 61, m at next level, right associativity).
Notation "m ;; k" := (bind m (fun _ => k))
  (at level 61, right associativity).

Definition lift {A : Type} (r : result A) : M A := fun w => (r, w).

Definition get_globals : M Globals := fun w => (Ok (globals w), w).

(** [logger.log(level, msg)]: the backend receives one call. *)
Definition logger_log (logger : Logger) (level : Z) (msg : string) : M unit :=
  fun w =>
    (Ok tt,
     {| globals := globals w;
        clock_reads := clock_reads w;
        emitted := emitted w ++ [mkEmission logger level msg] |}).

(** Assignment to a module attribute, as a caller does it
    ([lu.include_timestamp = False], [lu.DEFAULT_LEVEL = ...]). *)
Definition set_include_timestamp (b : bool) : M unit :=
  fun w =>
    (Ok tt,
     {| globals := {| include_timestamp := b;
                      DEFAULT_LEVEL := DEFAULT_LEVEL (globals w) |};
        clock_reads := clock_reads w;
        emitted := emitted w |}).

Definition set_DEFAULT_LEVEL (l : Z) : M unit :=
  fun w =>
    (Ok tt,
     {| globals := {| include_timestamp := include_timestamp (globals w);
                      DEFAULT_LEVEL := l |};
        clock_reads := clock_reads w;
        emitted := emitted w |}).

(** ** Configuration of the logging backend

    [configure] drives three operations of its platform: the YAML
    loader, [logging.config.dictConfig] and [logging.config.fileConfig].
    They are parameters of the model; the calls made to them are
    recorded in call order. *)

(** The exceptions [configure] tells apart, each with the text [str()]
    gives for it.  All of them are subclasses of [Exception]. *)
Inductive config_exn : Type :=
| YAMLError (msg : string)
| ConfigParserError (msg : string)
| IOError (msg : string)
| OtherException (msg : string).

(** [str(err)]. *)
Definition exn_str (e : config_exn) : string :=
  match e with
  | YAMLError m | ConfigParserError m | IOError m | OtherException m => m
  end.

Inductive outcome (A : Type) : Type :=
| Done (a : A)
| Failed (e : config_exn).
Arguments Done {A} a.
Arguments Failed {A} e.

(** One call to the platform; [Obj] is the type of the Python objects a
    configuration file is parsed to. *)
Inductive config_call (Obj : Type) : Type :=
| yaml_load_call (path : string)
| dictConfig_call (cfgdict : Obj)
| fileConfig_call (path : string).
Arguments yaml_load_call {Obj} path.
Arguments dictConfig_call {Obj} cfgdict.
Arguments fileConfig_call {Obj} path.

(** The platform: [yaml] is [None] when the import of the package
    failed, and otherwise [yaml.load(open(path, 'r'))] as a function of
    the path; [dictConfig] and [fileConfig] are those of
    [logging.config]. *)
Record Platform (Obj : Type) : Type := mkPlatform {
  yaml : option (string -> outcome Obj);
  dictConfig : Obj -> outcome unit;
  fileConfig : string -> outcome unit
}.
Arguments yaml {Obj} p.
Arguments dictConfig {Obj} p cfgdict.
Arguments fileConfig {Obj} p path.

(** The argument of [configure]: a dictionary or a path. *)
Inductive Cfg (Obj : Type) : Type :=
| CfgDict (d : Obj)
| CfgPath (path : string).
Arguments CfgDict {Obj} d.
Arguments CfgPath {Obj} path.

(** The state of one call of [configure]: its local variable [is_yaml]
    and the calls made to the platform so far, oldest first. *)
Record ConfigState (Obj : Type) : Type := mkConfigState {
  is_yaml : bool;
  calls : list (config_call Obj)
}.
Arguments mkConfigState {Obj} is_yaml calls.
Arguments is_yaml {Obj} c.
Arguments calls {Obj} c.

Definition CM (Obj A : Type) : Type :=
  ConfigState Obj -> outcome A * ConfigState Obj.

Definition cret {Obj A : Type} (a : A) : CM Obj A := fun s => (Done a, s).

Definition craise {Obj A : Type} (e : config_exn) : CM Obj A :=
  fun s => (Failed e, s).

Definition cbind {Obj A B : Type} (m : CM Obj A) (k : A -> CM Obj B) : CM Obj B :=
  fun s =>
    match m s with
    | (Done a, s') => k a s'
    | (Failed e, s') => (Failed e, s')
    end.

(** [try: body  except <the classes the handler answers to>: handler]. *)
Definition try_except {Obj A : Type} (body : CM Obj A)
    (handler : config_exn -> option (CM Obj A)) : CM Obj A :=
  fun s =>
    match body s with
    | (Done a, s') => (Done a, s')
    | (Failed e, s') =>
        match handler e with
        | Some h => h s'
        | None => (Failed e, s')
        end
    end.

(** A call to the platform: it is recorded, then it returns or raises. *)
Definition platform_call {Obj A : Type} (c : config_call Obj) (r : outcome A)
  : CM Obj A :=
  fun s => (r, {| is_yaml := is_yaml s; calls := calls s ++ [c] |}).

Definition set_is_yaml {Obj : Type} (b : bool) : CM Obj unit :=
  fun s => (Done tt, {| is_yaml := b; calls := calls s |}).

Definition get_is_yaml {Obj : Type} : CM Obj bool :=
  fun s => (Done (is_yaml s), s).

Declare Scope config_scope.
Delimit Scope config_scope with cfg.
Notation "x <- m ;; k" := (cbind m (fun x => k))
  (at level 61, m at next level, right associativity) : config_scope.
Notation "m ;; k" := (cbind m (fun _ => k))
  (at level 61, right associativity) : config_scope.

(** The double quote. *)
Definition dquote : string := String "034"%char "".

Definition yaml_missing_message : string :=
  "Configuration file ended in " ++ dquote ++ ".yaml" ++ dquote ++ ", but "
  ++ "The third-party " ++ dquote ++ "yaml" ++ dquote
  ++ " package was not found. To fix, "
  ++ "either use a ConfigParse-style file, or add the yaml "
  ++ "package (e.g., " ++ dquote ++ "pip install pyyaml" ++ dquote ++ ").".

(** ['Error configuring from file "{}": {}'.format(cfg, err)]. *)
Definition configure_error (cfg : string) (err : config_exn) : string :=
  "Error configuring from file " ++ dquote ++ cfg ++ dquote ++ ": "
  ++ exn_str err.

(** The body of [configure] for a path. *)
Definition configure_file {Obj : Type} (env : Platform Obj) (cfg : string)
  : CM Obj unit :=
  try_except
    (set_is_yaml false ;;
     let force_yaml := PyStr.endswith ".yaml" cfg in
     match yaml env with
     | None =>
         if force_yaml then craise (IOError yaml_missing_message) else cret tt
     | Some yaml_load =>
         try_except
           (cfgdict <- platform_call (yaml_load_call cfg) (yaml_load cfg) ;;
            set_is_yaml true ;;
            platform_call (dictConfig_call cfgdict) (dictConfig env cfgdict))
           (fun e =>
              match e with
              | YAMLError _ =>
                  Some (if force_yaml
                        then craise (IOError "Cannot parse as YAML")
                        else cret tt)
              | _ => None
              end)
     end ;;
     yes <- get_is_yaml ;;
     if negb yes then
       try_except
         (platform_call (fileConfig_call cfg) (fileConfig env cfg))
         (fun e =>
            match e with
            | ConfigParserError _ =>
                Some (craise (IOError
                  "Cannot parse as either YAML or ConfigParse format"))
            | _ => None
            end)
     else cret tt)%cfg
    (fun err => Some (craise (IOError (configure_error cfg err)))).

(** Configure logging from YAML or ConfigParser file, or a dictionary.
    The result of one call and the calls it made to the platform;
    [is_yaml] is unbound until the path branch assigns it. *)
Definition configure {Obj : Type} (env : Platform Obj) (cfg : Cfg Obj)
  : outcome unit * list (config_call Obj) :=
  let run (m : CM Obj unit) :=
    let (r, s) := m {| is_yaml := false; calls := [] |} in (r, calls s) in
  match cfg with
  | CfgDict d => run (platform_call (dictConfig_call d) (dictConfig env d))
  | CfgPath path => run (configure_file env path)
  end.

(** ** A sample platform

    One clock, one time zone (UTC) and one float printer, for evaluating
    the program on concrete calls. *)

(** The clock shows 1700000000.0 at its first reading and five seconds
    more at each later one. *)
Definition sample_clock (n : nat) : pyfloat :=
  float_of_Z (1700000000 + 5 * Z.of_nat n).

(** The local time zone is UTC.  [microseconds t] is the reading in
    whole microseconds; a reading that is not a positive number, for
    which [datetime.fromtimestamp] may raise, counts as the epoch (no
    sample clock shows one). *)
Definition microseconds (t : pyfloat) : Z :=
  match t with
  | S754_finite false m e => scaled_round 6 m e
  | _ => 0
  end.

(** The civil date of a day counted from 1970-01-01, as [YYYY-MM-DD]. *)
Definition civil_date (days : Z) : string :=
  let z := days + 719468 in
  let era := z / 146097 in
  let doe := z - era * 146097 in
  let yoe := (doe - doe / 1460 + doe / 36524 - doe / 146096) / 365 in
  let doy := doe - (365 * yoe + yoe / 4 - yoe / 100) in
  let mp := (5 * doy + 2) / 153 in
  let d := doy - (153 * mp + 2) / 5 + 1 in
  let m := if mp <? 10 then mp + 3 else mp - 9 in
  let y := yoe + era * 400 + (if m <=? 2 then 1 else 0) in
  low_digits 4 y "" ++ "-" ++ low_digits 2 m "" ++ "-" ++ low_digits 2 d "".

(** [datetime.fromtimestamp(t).isoformat()] in UTC: the microseconds
    are printed when they are not zero. *)
Definition sample_isoformat (t : pyfloat) : string :=
  let us := microseconds t in
  let secs := us / 1000000 in
  let frac := us mod 1000000 in
  let rem := secs mod 86400 in
  civil_date (secs / 86400) ++ "T"
  ++ low_digits 2 (rem / 3600) "" ++ ":"
  ++ low_digits 2 (rem mod 3600 / 60) "" ++ ":"
  ++ low_digits 2 (rem mod 60) ""
  ++ (if frac =? 0 then "" else "." ++ low_digits 6 frac "").

(** Floats are printed with one fractional digit, as Python prints the
    floats of moderate size that have no more ([2.0], [0.5]). *)
Definition sample_float_str (x : pyfloat) : string := format_fixed 1 x.

(** ** The program *)

Section Logutil.

(** What the program takes from its platform: the wall clock (the value
    the [n]-th call of [time.time()] returns), the local-time ISO-8601
    rendering [datetime.fromtimestamp(t).isoformat()], and [str] on a
    float. *)
Variable wall_clock : nat -> pyfloat.
Variable isoformat_local : pyfloat -> string.
Variable float_str : pyfloat -> string.

(** [time.time()]. *)
Definition time_time : M pyfloat :=
  fun w =>
    (Ok (wall_clock (clock_reads w)),
     {| globals := globals w;
        clock_reads := S (clock_reads w);
        emitted := emitted w |}).

(** [str(v)]: the natural string form of a value. *)
Definition py_str (v : value) : string :=
  match v with
  | VInt n => str_of_Z n
  | VFloat x => float_str x
  | VBool b => if b then "True" else "False"
  | VStr s => s
  | VNone => "None"
  end.

(** *** [str.format] with keyword arguments

    A template is literal text with replacement fields [{name}]; [{{] and
    [}}] stand for a brace.  A field is a plain name, as in every template
    of this module: conversions, format specifications, attribute and
    index access are not modelled. *)

Inductive fmt_state : Type :=
| InText
| AfterOpen
| InField (name : string)
| AfterClose.

Definition is_digit (c : ascii) : bool :=
  match c with
  | "0" | "1" | "2" | "3" | "4" | "5" | "6" | "7" | "8" | "9" => true
  | _ => false
  end%char.

Definition all_digits (s : string) : bool :=
  forallb is_digit (PyStr.chars s).

Definition map_result {A B : Type} (f : A -> B) (r : result A) : result B :=
  match r with Ok a => Ok (f a) | Raise e => Raise e end.

Fixpoint format_from (d : list (string * value)) (st : fmt_state) (s : string)
  : result string :=
  match s with
  | EmptyString =>
      match st with InText => Ok EmptyString | _ => Raise ValueError end
  | String c rest =>
      match st with
      | InText =>
          if Ascii.eqb c "{" then format_from d AfterOpen rest
          else if Ascii.eqb c "}" then format_from d AfterClose rest
          else map_result (String c) (format_from d InText rest)
      | AfterOpen =>
          if Ascii.eqb c "{" then map_result (String c) (format_from d InText rest)
          else if Ascii.eqb c "}" then Raise IndexError
          else format_from d (InField (String c EmptyString)) rest
      | InField name =>
          if Ascii.eqb c "}" then
            if all_digits name then Raise IndexError
            else match dict_get name d with
                 | Some v => map_result (append (py_str v)) (format_from d InText rest)
                 | None => Raise (KeyError name)
                 end
          else if Ascii.eqb c "{" then Raise ValueError
          else format_from d (InField (name ++ String c EmptyString)) rest
      | AfterClose =>
          if Ascii.eqb c "}" then map_result (String c) (format_from d InText rest)
          else Raise ValueError
      end
  end.

(** [fmt.format] applied to the keywords of [d]. *)
Definition py_format (fmt : string) (d : list (string * value)) : result string :=
  format_from d InText fmt.

(** *** Internal functions *)

(** [_MESSAGE_FORMATS[include_timestamp][mtype]]: the flag indexes the
    list as [0] or [1], the message type is a key of the dictionary. *)
Definition _default_message (mtype : string) : M string :=
  g <- get_globals ;;
  match nth_error _MESSAGE_FORMATS (if include_timestamp g then 1%nat else 0%nat) with
  | None => raise IndexError
  | Some formats =>
      match dict_get mtype formats with
      | Some fmt => ret fmt
      | None => raise (KeyError mtype)
      end
  end.

(** The loop body of [_format_kvp]: a string value that contains the
    separator gets its commas escaped, an empty string becomes two
    quotes, everything else is kept. *)
Definition kvp_value (sep : string) (v : value) : value :=
  match v with
  | VStr s =>
      if PyStr.contains sep s then VStr (PyStr.replace "," "\," s)
      else if Nat.eqb (String.length s) 0 then VStr "''"
      else v
  | _ => v
  end.

(** Format key-value pairs as a string.  ['{}{}{}'.format(k, _KVSEP, v)]
    is the three strings one after the other. *)
Definition _format_kvp (d : AttributeSet) : string :=
  let sep := _KVPSEP in
  let pairs := map (fun kv => (fst kv, kvp_value sep (snd kv))) d in
  PyStr.join sep
    (map (fun kv => fst kv ++ _KVSEP ++ py_str (snd kv)) pairs).

(** Format a timestamp as an ISO8601 string. *)
Definition format_timestamp (t : pyfloat) : string := isoformat_local t.

(** [_format_kvp(kvp) if kvp else '']. *)
Definition kvp_string (kvp : AttributeSet) : string :=
  match kvp with
  | [] => ""
  | _ => _format_kvp kvp
  end.

(** [level] when it [is None] replaced by the module's [DEFAULT_LEVEL]. *)
Definition level_or_default (level : option Z) : M Z :=
  match level with
  | Some l => ret l
  | None => g <- get_globals ;; ret (DEFAULT_LEVEL g)
  end.

(** *** Exported functions *)

(** Log a single message. *)
Definition event (logger : Logger) (name : string) (level : option Z)
    (fmt : option string) (kvp : AttributeSet) : M pyfloat :=
  t0 <- time_time ;;
  let kvp_str := kvp_string kvp in
  let d := [ ("timestamp", VStr (format_timestamp t0));
             ("func_name", VStr name);
             ("kvp", VStr kvp_str) ] in
  fmt <- match fmt with
         | Some f => if Nat.eqb (String.length f) 0
                     then _default_message "event" else ret f
         | None => _default_message "event"
         end ;;
  msg <- lift (py_format fmt d) ;;
  level <- level_or_default level ;;
  logger_log logger level msg ;;
  ret t0.

(** Log the start of some activity. *)
Definition start (logger : Logger) (name : string) (level : option Z)
    (kvp : AttributeSet) : M pyfloat :=
  t0 <- time_time ;;
  let kvp_str := kvp_string kvp in
  let d := [ ("timestamp", VStr (format_timestamp t0));
             ("func_name", VStr name);
             ("kvp", VStr kvp_str) ] in
  fmt <- _default_message "entry" ;;
  msg <- lift (py_format fmt d) ;;
  level <- level_or_default level ;;
  logger_log logger level msg ;;
  ret t0.

(** Log the end of some activity ([end] in the source). *)
Definition end_ (logger : Logger) (name : string) (t0 : option pyfloat)
    (level : option Z) (status_code : arg value) (kvp : AttributeSet) : M unit :=
  let status_code := or_default status_code (VInt 0) in
  t1 <- time_time ;;
  let kvp_str := kvp_string kvp in
  let d := [ ("timestamp", VStr (format_timestamp t1));
             ("func_name", VStr name);
             ("kvp", VStr kvp_str);
             ("status", status_code) ] in
  df <- match t0 with
        | Some t0 =>
            let d := dict_set "dur" (VStr (format_fixed 6 (float_sub t1 t0))) d in
            fmt <- _default_message "exit" ;;
            ret (d, fmt)
        | None =>
            fmt <- _default_message "exit_nodur" ;;
            ret (d, fmt)
        end ;;
  level <- level_or_default level ;;
  msg <- lift (py_format (snd df) (fst df)) ;;
  logger_log logger level msg.

(** The call [end(logger, func_name, t0, level=level, **kvp)] of the
    decorators.  The keywords of [kvp] are bound against the parameters
    of [end]: when [kvp] has the name [t0], that parameter is given
    twice and the call raises [TypeError] before the body of [end]
    runs; an entry [status_code] of [kvp] is the parameter of that name
    and not an attribute.  ([logger], [name] and [level] are parameters
    of the decorators themselves, so [kvp] has none of them, and
    [start] has no other parameter.) *)
Definition end_with_keywords (logger : Logger) (name : string) (t0 : pyfloat)
    (level : option Z) (kvp : AttributeSet) : M unit :=
  match dict_get "t0" kvp with
  | Some _ => raise TypeError
  | None =>
      end_ logger name (Some t0) level
        (match dict_get "status_code" kvp with
         | Some v => Given v
         | None => Omitted
         end)
        (dict_del "status_code" kvp)
  end.

(** A Python callable: its [__name__] and what calling it does. *)
Record Callable (A R : Type) : Type := mkCallable {
  __name__ : string;
  call : A -> M R
}.
Arguments __name__ {A R} c.
Arguments call {A R} c a.

(** [name or f.__name__]. *)
Definition name_or (name : option string) (dflt : string) : string :=
  match name with
  | Some n => if Nat.eqb (String.length n) 0 then dflt else n
  | None => dflt
  end.

(** Wrap a method in a [start()] / [end()]: [wrap_method(...)(method)]
    applied to [self] and the arguments. *)
Definition wrap_method {S A R : Type} (logger : Logger) (name : option string)
    (level : arg (option Z)) (kvp : AttributeSet) (method : Callable (S * A) R)
  : S -> A -> M R :=
  let level := or_default level (Some logging_INFO) in
  let func_name := name_or name (__name__ method) in
  fun self args =>
    t0 <- start logger func_name level kvp ;;
    returnval <- call method (self, args) ;;
    end_with_keywords logger func_name t0 level kvp ;;
    ret returnval.

(** Wrap a function in a [start()] / [end()]: [wrap_func(...)(func)]
    applied to the arguments. *)
Definition wrap_func {A R : Type} (logger : Logger) (name : option string)
    (level : arg (option Z)) (kvp : AttributeSet) (func : Callable A R)
  : A -> M R :=
  let level := or_default level (Some logging_INFO) in
  let func_name := name_or name (__name__ func) in
  fun args =>
    t0 <- start logger func_name level kvp ;;
    returnval <- call func args ;;
    end_with_keywords logger func_name t0 level kvp ;;
    ret returnval.

(** What [wrap_func(...)] returns for a function: the closure
    [func_wrapper], a function of that name (the source does not copy
    the name of the function it wraps). *)
Definition decorate_func {A R : Type} (logger : Logger) (name : option string)
    (level : arg (option Z)) (kvp : AttributeSet) (func : Callable A R)
  : Callable A R :=
  {| __name__ := "func_wrapper";
     call := wrap_func logger name level kvp func |}.

(** *** A caller *)

(** [examples/basic.py]: an activity around one event. *)
Definition basic_example (log : Logger) (file prog : string) : M unit :=
  t0 <- start log "program" None [("file", VStr file)] ;;
  event log "one event" None None [] ;;
  end_ log "program" (Some t0) None Omitted [("file", VStr prog)].

(** One entry of the fragment, as the loop and the join build it. *)
Definition entry_text (kv : string * value) : string :=
  fst kv ++ _KVSEP ++ py_str (kvp_value _KVPSEP (snd kv)).

(** ** What the spec says, in its own words *)

(** "inserting a backslash immediately before every occurrence of the
    value-separator character (default [,]) inside the string". *)
Fixpoint escape_commas (s : string) : string :=
  match s with
  | EmptyString => EmptyString
  | String c rest =>
      if Ascii.eqb c ","
      then String "\" (String c (escape_commas rest))
      else String c (escape_commas rest)
  end.

(** The value rendering rules of section 4.1: "Empty string values
    render as the two-character literal ['']", "String values
    containing the pair-separator character are escaped by inserting a
    backslash immediately before every occurrence" of the comma (which
    changes nothing in a string without one), "Non-string values render
    via their natural string representation". *)
Definition spec_value (v : value) : string :=
  match v with
  | VStr EmptyString => "''"
  | VStr s => escape_commas s
  | _ => py_str v
  end.

(** "for each entry, render [name=value]; join entries with a configured
    separator (default [,])", "or the empty string if the set is
    empty". *)
Definition spec_fragment (d : AttributeSet) : string :=
  String.concat "," (map (fun kv => fst kv ++ "=" ++ spec_value (snd kv)) d).

(** "manual split on the pair-separator and key-separator":
    [fragment.split(',')] and each piece parted at its first [=].  The
    empty fragment splits into one empty piece. *)
Definition decode_kvp (fragment : string) : list (string * string) :=
  map (PyStr.partition "=") (PyStr.split "," fragment).

(** The wire format of the four message shapes, with the timestamp in
    front when the template mode asks for it. *)
Definition entry_message (name kvp_str : string) : string :=
  name ++ ".begin ; " ++ kvp_str.
Definition exit_message (name dur kvp_str : string) : string :=
  name ++ ".end (" ++ dur ++ ") ; " ++ kvp_str.
Definition exit_nodur_message (name kvp_str : string) : string :=
  name ++ ".end ; " ++ kvp_str.
Definition event_message (name kvp_str : string) : string :=
  name ++ " ; " ++ kvp_str.
Definition stamped (mode : bool) (stamp body : string) : string :=
  if mode then stamp ++ " " ++ body else body.

(** [s] has the character [c]. *)
Definition has_char (c : ascii) (s : string) : Prop := In c (PyStr.chars s).

(** The text that comes back for a value after the split: its natural
    string form, and two quotes for the empty string. *)
Definition rendered (v : value) : string :=
  match v with
  | VStr EmptyString => "''"
  | _ => py_str v
  end.

(** The round trip of the claim: the pairs that come back are the
    original names with the rendered values, in any order. *)
Definition roundtrip (d : AttributeSet) : Prop :=
  Permutation (decode_kvp (_format_kvp d))
              (map (fun kv => (fst kv, rendered (snd kv))) d).

(** No string value of the set has the pair separator. *)
Definition strings_free_of (c : ascii) (d : AttributeSet) : Prop :=
  forall k s, In (k, VStr s) d -> ~ has_char c s.

(** No attribute name of the set has the character. *)
Definition names_free_of (c : ascii) (d : AttributeSet) : Prop :=
  forall k v, In (k, v) d -> ~ has_char c k.

(** The world after one call that read the clock once and handed one
    message to the backend. *)
Definition after_call (w : World) (e : Emission) : World :=
  {| globals := globals w;
     clock_reads := S (clock_reads w);
     emitted := emitted w ++ [e] |}.

(** The severity of an emission: the one supplied, or the module-wide
    default as the world has it at the call. *)
Definition level_of (level : option Z) (w : World) : Z :=
  match level with
  | Some l => l
  | None => DEFAULT_LEVEL (globals w)
  end.

(** The template [event] formats: the caller's, unless it is absent or
    empty. *)
Definition custom_fmt (fmt : option string) : option string :=
  match fmt with
  | Some f => if Nat.eqb (String.length f) 0 then None else Some f
  | None => None
  end.

(** What the clock shows at the next reading. *)
Definition now (w : World) : pyfloat := wall_clock (clock_reads w).

(** The clock reading [i] readings after the world [w]. *)
Definition reading (w : World) (i : nat) : pyfloat :=
  wall_clock (i + clock_reads w).

(** The world after a call that read the clock and logged nothing. *)
Definition clock_read (w : World) : World :=
  {| globals := globals w;
     clock_reads := S (clock_reads w);
     emitted := emitted w |}.

(** The keywords [event] passes to [format]: the dictionary [d] of the
    source, for a call in the world [w]. *)
Definition event_keywords (name : string) (kvp : AttributeSet) (w : World)
  : list (string * value) :=
  [ ("timestamp", VStr (format_timestamp (now w)));
    ("func_name", VStr name);
    ("kvp", VStr (kvp_string kvp)) ].

(** The characters that give a replacement field more than a name: the
    braces, attribute and index access, conversion and format
    specification. *)
Definition field_markup : list ascii := ["{"; "}"; "."; "["; "!"; ":"]%char.

(** A field that is a name and nothing else. *)
Definition plain_name (s : string) : bool :=
  forallb (fun c => negb (existsb (Ascii.eqb c) field_markup)) (PyStr.chars s).

(** The entry and exit emissions of a wrapped call: [w] is the world at
    the call of the wrapper, [w2] the world in which the wrapped callable
    returned. *)
Definition entry_emission (logger : Logger) (func_name : string)
    (level : option Z) (kvp : AttributeSet) (w : World) : Emission :=
  mkEmission logger (level_of level w)
    (stamped (include_timestamp (globals w)) (format_timestamp (now w))
       (entry_message func_name (kvp_string kvp))).

(** The attributes the decorators' call of [end] is left with. *)
Definition exit_attributes (kvp : AttributeSet) : AttributeSet :=
  dict_del "status_code" kvp.

Definition exit_emission (logger : Logger) (func_name : string)
    (level : option Z) (kvp : AttributeSet) (t0 : pyfloat) (w2 : World)
  : Emission :=
  mkEmission logger (level_of level w2)
    (stamped (include_timestamp (globals w2)) (format_timestamp (now w2))
       (exit_message func_name (format_fixed 6 (float_sub (now w2) t0))
          (kvp_string kvp))).

(** How a wrapped call ends once the wrapped callable has returned [r]
    in the world [w2]: with the exit emission and [r], unless an
    attribute of the decorator is named [t0]; then the call of [end]
    raises [TypeError], nothing more is emitted and [r] is lost. *)
Definition finished {R : Type} (logger : Logger) (func_name : string)
    (level : option Z) (kvp : AttributeSet) (t0 : pyfloat) (r : R) (w2 : World)
  : result R * World :=
  match dict_get "t0" kvp with
  | None =>
      (Ok r,
       after_call w2
         (exit_emission logger func_name level (exit_attributes kvp) t0 w2))
  | Some _ => (Raise TypeError, w2)
  end.

(** A float that is a number: a zero or a finite non-zero value. *)
Definition float_is_finite (x : pyfloat) : bool :=
  match x with
  | S754_zero _ | S754_finite _ _ _ => true
  | S754_infinity _ | S754_nan => false
  end.

(** The sign bit of a float. *)
Definition float_sign (x : pyfloat) : bool :=
  match x with
  | S754_zero s | S754_infinity s | S754_finite s _ _ => s
  | S754_nan => false
  end.




(** Fixed-point notation: a minus sign when [sign] is set, one or more
    digits, a point, and exactly [digits] digits. *)
Definition fixed_point_shape (digits : nat) (sign : bool) (text : string) : Prop :=
  exists ip fp : string,
    text = sign_str sign ++ ip ++ "." ++ fp /\
    ip <> "" /\
    all_digits ip = true /\
    all_digits fp = true /\
    String.length fp = digits.

(** ** Evaluation on small inputs *)

Example str_of_Z_pos : str_of_Z 42 = "42".
Proof. reflexivity. Qed.

Example str_of_Z_zero : str_of_Z 0 = "0".
Proof. reflexivity. Qed.

Example str_of_Z_neg : str_of_Z (-7) = "-7".
Proof. reflexivity. Qed.

Example format_fixed_5 : format_fixed 6 (float_of_Z 5) = "5.000000".
Proof. reflexivity. Qed.

Example format_fixed_half : format_fixed 6 (S754_finite false 1 (-1)) = "0.500000".
Proof. reflexivity. Qed.

Example format_fixed_tie_even :
  format_fixed 0 (S754_finite false 5 (-1)) = "2" /\
  format_fixed 0 (S754_finite false 7 (-1)) = "4".
Proof. split; reflexivity. Qed.

Example format_fixed_neg_small : format_fixed 6 (S754_finite true 1 (-40)) = "-0.000000".
Proof. reflexivity. Qed.

Example format_fixed_third :
  format_fixed 6 (S754_finite false 6004799503160661 (-54)) = "0.333333".
Proof. vm_compute. reflexivity. Qed.

(** ** Lemmas on strings *)

Lemma str_app_nil_r (s : string) : s ++ "" = s.
Proof. induction s as [|c s IH]; simpl; [reflexivity | now rewrite IH]. Qed.

Lemma str_app_assoc (a b c : string) : (a ++ b) ++ c = a ++ (b ++ c).
Proof. induction a as [|x a IH]; simpl; [reflexivity | now rewrite IH]. Qed.

Lemma chars_app (a b : string) :
  PyStr.chars (a ++ b) = (PyStr.chars a ++ PyStr.chars b)%list.
Proof.
  unfold PyStr.chars.
  induction a as [|x a IH]; simpl; [reflexivity | now rewrite IH].
Qed.

Lemma has_char_app (c : ascii) (a b : string) :
  has_char c (a ++ b) <-> has_char c a \/ has_char c b.
Proof. unfold has_char. rewrite chars_app. apply in_app_iff. Qed.

Lemma has_char_cons (c x : ascii) (s : string) :
  has_char c (String x s) <-> x = c \/ has_char c s.
Proof. unfold has_char, PyStr.chars. simpl. tauto. Qed.

Lemma has_char_nil (c : ascii) : ~ has_char c "".
Proof. unfold has_char, PyStr.chars. simpl. tauto. Qed.

Lemma prefix_char (c : ascii) (x : ascii) (s : string) :
  String.prefix (String c "") (String x s) = Ascii.eqb c x.
Proof.
  simpl. destruct (ascii_dec c x) as [->|N].
  - rewrite Ascii.eqb_refl. now destruct s.
  - apply Ascii.eqb_neq in N. now rewrite N.
Qed.

Lemma contains_char_true (c : ascii) (s : string) :
  PyStr.contains (String c "") s = true <-> has_char c s.
Proof.
  induction s as [|x s IH].
  - simpl. split; [discriminate | intros H; destruct (has_char_nil c H)].
  - change (PyStr.contains (String c "") (String x s))
      with (String.prefix (String c "") (String x s)
            || PyStr.contains (String c "") s).
    rewrite prefix_char, orb_true_iff, IH, has_char_cons, Ascii.eqb_eq.
    split; intros [H|H]; auto.
Qed.

Lemma contains_char_false (c : ascii) (s : string) :
  PyStr.contains (String c "") s = false <-> ~ has_char c s.
Proof.
  rewrite <- contains_char_true.
  destruct (PyStr.contains (String c "") s); split; congruence.
Qed.

Lemma replace_comma (s : string) : PyStr.replace "," "\," s = escape_commas s.
Proof.
  unfold PyStr.replace.
  induction s as [|x s IH]; [reflexivity|].
  change (PyStr.replace_from "," "\," (String x s) 0)
    with (if String.prefix "," (String x s)
          then "\," ++ PyStr.replace_from "," "\," s (Nat.pred (String.length ","))
          else String x (PyStr.replace_from "," "\," s 0)).
  rewrite prefix_char. simpl escape_commas.
  rewrite (Ascii.eqb_sym x ","). simpl Nat.pred. rewrite IH.
  destruct (Ascii.eqb_spec "," x) as [<-|N]; reflexivity.
Qed.

Lemma split_no_sep (c : ascii) (p : string) :
  ~ has_char c p -> PyStr.split c p = [p].
Proof.
  induction p as [|x p IH]; intros H; [reflexivity|].
  simpl. rewrite has_char_cons in H.
  destruct (Ascii.eqb_spec x c) as [E|N]; [tauto|].
  rewrite IH by tauto. reflexivity.
Qed.

Lemma split_app_sep (c : ascii) (p rest : string) :
  ~ has_char c p ->
  PyStr.split c (p ++ String c rest) = p :: PyStr.split c rest.
Proof.
  induction p as [|x p IH]; intros H.
  - simpl. now rewrite Ascii.eqb_refl.
  - simpl. rewrite has_char_cons in H.
    destruct (Ascii.eqb_spec x c) as [E|N]; [tauto|].
    rewrite IH by tauto. reflexivity.
Qed.

(** Splitting undoes joining when no piece has the separator. *)
Lemma split_join (c : ascii) (pieces : list string) :
  pieces <> [] ->
  Forall (fun p => ~ has_char c p) pieces ->
  PyStr.split c (PyStr.join (String c "") pieces) = pieces.
Proof.
  unfold PyStr.join.
  induction pieces as [|p ps IH]; intros NE F; [congruence|].
  inversion F as [|? ? Hp Hps]; subst.
  destruct ps as [|q qs].
  - simpl. now apply split_no_sep.
  - change (String.concat (String c "") (p :: q :: qs))
      with (p ++ String c "" ++ String.concat (String c "") (q :: qs)).
    change (String c "" ++ String.concat (String c "") (q :: qs))
      with (String c (String.concat (String c "") (q :: qs))).
    rewrite split_app_sep by assumption.
    rewrite IH; [reflexivity | discriminate | assumption].
Qed.

Lemma partition_app_sep (c : ascii) (k v : string) :
  ~ has_char c k -> PyStr.partition c (k ++ String c v) = (k, v).
Proof.
  induction k as [|x k IH]; intros H.
  - simpl. now rewrite Ascii.eqb_refl.
  - simpl. rewrite has_char_cons in H.
    destruct (Ascii.eqb_spec x c) as [E|N]; [tauto|].
    rewrite IH by tauto. reflexivity.
Qed.

(** *** The characters of a rendered integer *)

Definition digit_or_minus (c : ascii) : Prop := is_digit c = true \/ c = "-"%char.

Lemma uint_chars (u : Decimal.uint) :
  Forall digit_or_minus (PyStr.chars (NilEmpty.string_of_uint u)).
Proof.
  unfold PyStr.chars.
  induction u; simpl; constructor; try assumption; left; reflexivity.
Qed.

Lemma str_of_Z_chars (n : Z) : Forall digit_or_minus (PyStr.chars (str_of_Z n)).
Proof.
  unfold str_of_Z, NilZero.string_of_int, NilZero.string_of_uint.
  destruct (Z.to_int n) as [u|u].
  - destruct u; try apply uint_chars.
    constructor; [left; reflexivity | constructor].
  - unfold PyStr.chars. simpl. constructor; [right; reflexivity|].
    destruct u; try apply uint_chars.
    constructor; [left; reflexivity | constructor].
Qed.

Lemma digit_or_minus_not (c x : ascii) :
  is_digit c = false -> c <> "-"%char -> digit_or_minus x -> x <> c.
Proof. intros Hd Hm [H|H] E; subst; congruence. Qed.

Lemma str_of_Z_no_char (c : ascii) (n : Z) :
  is_digit c = false -> c <> "-"%char -> ~ has_char c (str_of_Z n).
Proof.
  intros Hd Hm H. unfold has_char in H.
  pose proof (str_of_Z_chars n) as F. rewrite Forall_forall in F.
  exact (digit_or_minus_not c c Hd Hm (F c H) eq_refl).
Qed.

(** ** The key/value encoder *)

Lemma format_kvp_entries (d : AttributeSet) :
  _format_kvp d = PyStr.join _KVPSEP (map entry_text d).
Proof. unfold _format_kvp. rewrite map_map. reflexivity. Qed.

Lemma format_kvp_single (k : string) (v : value) :
  _format_kvp [(k, v)] = k ++ "=" ++ py_str (kvp_value _KVPSEP v).
Proof. reflexivity. Qed.

Lemma kvp_value_with_sep (s : string) :
  has_char "," s -> kvp_value _KVPSEP (VStr s) = VStr (escape_commas s).
Proof.
  intros H. unfold kvp_value, _KVPSEP.
  apply contains_char_true in H. rewrite H. now rewrite replace_comma.
Qed.

Lemma kvp_value_without_sep (s : string) :
  ~ has_char "," s ->
  kvp_value _KVPSEP (VStr s) = VStr (match s with EmptyString => "''" | _ => s end).
Proof.
  intros H. unfold kvp_value, _KVPSEP.
  apply contains_char_false in H. rewrite H. now destruct s.
Qed.

Lemma escape_commas_has_comma (s : string) :
  has_char "," s -> has_char "," (escape_commas s).
Proof.
  induction s as [|x s IH]; intros H; [destruct (has_char_nil _ H)|].
  simpl. apply has_char_cons in H.
  destruct (Ascii.eqb_spec x ",") as [->|N].
  - apply has_char_cons. right. apply has_char_cons. now left.
  - apply has_char_cons. right. apply IH. destruct H; [congruence | assumption].
Qed.

Lemma str_app_inv_l (k a b : string) : k ++ a = k ++ b -> a = b.
Proof. induction k as [|x k IH]; simpl; intros H; [assumption | injection H; auto]. Qed.

Lemma escape_commas_app (a b : string) :
  escape_commas (a ++ b) = escape_commas a ++ escape_commas b.
Proof.
  induction a as [|x a IH]; [reflexivity|].
  cbn [append escape_commas]. rewrite IH.
  destruct (Ascii.eqb x ","); reflexivity.
Qed.

Lemma escape_commas_clean (s : string) :
  ~ has_char "," s -> escape_commas s = s.
Proof.
  induction s as [|x s IH]; intros H; [reflexivity|].
  rewrite has_char_cons in H. cbn [escape_commas].
  destruct (Ascii.eqb_spec x ",") as [E|N]; [tauto|].
  rewrite IH by tauto. reflexivity.
Qed.

(** What the encoder writes for a non-empty string value, with or
    without commas. *)
Lemma kvp_value_escaped (s : string) :
  s <> "" -> py_str (kvp_value _KVPSEP (VStr s)) = escape_commas s.
Proof.
  intros NE.
  destruct (in_dec ascii_dec ","%char (PyStr.chars s)) as [Hc|Hc].
  - now rewrite kvp_value_with_sep.
  - rewrite kvp_value_without_sep by exact Hc.
    rewrite escape_commas_clean by exact Hc.
    destruct s; [congruence | reflexivity].
Qed.

(** The fragment is the one section 4.1 of the spec describes. *)
Lemma kvp_string_spec (d : AttributeSet) : kvp_string d = spec_fragment d.
Proof.
  destruct d as [|kv0 d0]; [reflexivity|].
  change (kvp_string (kv0 :: d0)) with (_format_kvp (kv0 :: d0)).
  rewrite format_kvp_entries. unfold PyStr.join, spec_fragment, _KVPSEP.
  f_equal. apply map_ext. intros [k v]. unfold entry_text, _KVSEP.
  cbn [fst snd]. do 2 f_equal.
  destruct v as [n|x|b|s|]; try reflexivity.
  destruct s as [|c s].
  - now rewrite kvp_value_without_sep by apply has_char_nil.
  - now rewrite kvp_value_escaped by discriminate.
Qed.


(** C4 as amended: an empty string value is rendered as the two quotes,
    and the fragment differs from the one of the same key with any other
    string value, the two-quote string itself excepted. *)
Theorem empty_string_distinct (k s : string) :
  _format_kvp [(k, VStr "")] = k ++ "=" ++ "''" /\
  (s <> "" -> s <> "''" ->
   _format_kvp [(k, VStr s)] <> _format_kvp [(k, VStr "")]).
Proof.
  split; [reflexivity|].
  intros Hne Hq E.
  rewrite !format_kvp_single in E.
  do 2 apply str_app_inv_l in E.
  rewrite (kvp_value_without_sep "") in E by apply has_char_nil.
  destruct (in_dec ascii_dec ","%char (PyStr.chars s)) as [Hc|Hc].
  - rewrite kvp_value_with_sep in E by exact Hc. simpl in E.
    apply escape_commas_has_comma in Hc. rewrite E in Hc.
    unfold has_char in Hc. simpl in Hc.
    destruct Hc as [Hc|[Hc|[]]]; discriminate.
  - rewrite kvp_value_without_sep in E by exact Hc.
    destruct s; [congruence | simpl in E; congruence].
Qed.

(** *** Round trip through the fragment *)

Lemma entry_text_rendered (k : string) (v : value) :
  (forall s, v = VStr s -> ~ has_char "," s) ->
  entry_text (k, v) = k ++ String "=" (rendered v).
Proof.
  intros H. unfold entry_text. simpl fst. simpl snd.
  destruct v as [n|x|b|s|]; try reflexivity.
  rewrite kvp_value_without_sep by (apply H; reflexivity).
  now destruct s.
Qed.

Lemma rendered_no_comma (v : value) :
  (forall x, ~ has_char "," (float_str x)) ->
  (forall s, v = VStr s -> ~ has_char "," s) ->
  ~ has_char "," (rendered v).
Proof.
  intros Hf Hs.
  destruct v as [n|x|b|s|]; simpl.
  - apply str_of_Z_no_char; [reflexivity | discriminate].
  - apply Hf.
  - destruct b; unfold has_char; simpl; intuition discriminate.
  - destruct s as [|c s].
    + unfold has_char; simpl; intuition discriminate.
    + apply Hs. reflexivity.
  - unfold has_char; simpl; intuition discriminate.
Qed.

(** C1 as amended: for a set that is not empty, when no attribute name
    has [,] or [=], no string value has [,] and no float is printed
    with [,], splitting the fragment on [,] and each piece at its first
    [=] gives back every name with the rendered form of its value (the
    natural string form, and the two quotes for an empty string), in
    the order of the set and hence in any order. *)
Theorem decode_format_kvp (d : AttributeSet) :
  (forall x, ~ has_char "," (float_str x)) ->
  names_free_of "," d ->
  names_free_of "=" d ->
  strings_free_of "," d ->
  d <> [] ->
  decode_kvp (_format_kvp d) = map (fun kv => (fst kv, rendered (snd kv))) d /\
  roundtrip d.
Proof.
  intros Hf Hnc Hne Hs Hd.
  assert (E : decode_kvp (_format_kvp d)
              = map (fun kv => (fst kv, rendered (snd kv))) d).
  { assert (Htext : forall kv, In kv d ->
              entry_text kv = fst kv ++ String "=" (rendered (snd kv))).
    { intros [k v] Hin. simpl fst. simpl snd. apply entry_text_rendered.
      intros s E. subst v. exact (Hs k s Hin). }
    assert (Hpieces : map entry_text d
              = map (fun kv => fst kv ++ String "=" (rendered (snd kv))) d).
    { apply map_ext_in. exact Htext. }
    rewrite format_kvp_entries, Hpieces.
    unfold decode_kvp, _KVPSEP. rewrite split_join.
    - rewrite map_map. apply map_ext_in. intros [k v] Hin. simpl.
      apply partition_app_sep. exact (Hne k v Hin).
    - destruct d; [congruence | discriminate].
    - apply Forall_forall. intros p Hp.
      apply in_map_iff in Hp. destruct Hp as [[k v] [<- Hin]].
      rewrite has_char_app, has_char_cons.
      intros [H|[H|H]].
      + exact (Hnc k v Hin H).
      + discriminate.
      + revert H. simpl snd. apply rendered_no_comma; [exact Hf|].
        intros s E. subst v. exact (Hs k s Hin). }
  split; [exact E|].
  unfold roundtrip. rewrite E. apply Permutation_refl.
Qed.

(** ** The three emitters *)

Ltac run_emitter :=
  unfold bind, time_time, _default_message, get_globals, level_or_default,
    lift, ret, raise, logger_log, after_call, level_of, now, stamped,
    entry_message, exit_message, exit_nodur_message, event_message,
    format_timestamp;
  cbn -[format_fixed float_sub];
  rewrite ?str_app_nil_r;
  try reflexivity.

Lemma start_run (logger : Logger) (name : string) (level : option Z)
    (kvp : AttributeSet) (w : World) :
  start logger name level kvp w
  = (Ok (now w),
     after_call w
       (mkEmission logger (level_of level w)
          (stamped (include_timestamp (globals w)) (format_timestamp (now w))
             (entry_message name (kvp_string kvp))))).
Proof.
  unfold start. generalize (kvp_string kvp) as ks. intros ks.
  destruct w as [[ts dl] n em].
  destruct ts, level; run_emitter.
Qed.

Lemma event_run (logger : Logger) (name : string) (level : option Z)
    (fmt : option string) (kvp : AttributeSet) (w : World) :
  custom_fmt fmt = None ->
  event logger name level fmt kvp w
  = (Ok (now w),
     after_call w
       (mkEmission logger (level_of level w)
          (stamped (include_timestamp (globals w)) (format_timestamp (now w))
             (event_message name (kvp_string kvp))))).
Proof.
  intros Hfmt. unfold event. generalize (kvp_string kvp) as ks. intros ks.
  destruct w as [[ts dl] n em].
  assert (Hsel : match fmt with
                 | Some f => if Nat.eqb (String.length f) 0
                             then _default_message "event" else ret f
                 | None => _default_message "event"
                 end = _default_message "event").
  { destruct fmt as [f|]; [|reflexivity].
    unfold custom_fmt in Hfmt.
    destruct (Nat.eqb (String.length f) 0); [reflexivity | discriminate]. }
  rewrite Hsel.
  destruct ts, level; run_emitter.
Qed.

Lemma end_run_with_start (logger : Logger) (name : string) (t0 : pyfloat)
    (level : option Z) (status_code : arg value) (kvp : AttributeSet) (w : World) :
  end_ logger name (Some t0) level status_code kvp w
  = (Ok tt,
     after_call w
       (mkEmission logger (level_of level w)
          (stamped (include_timestamp (globals w)) (format_timestamp (now w))
             (exit_message name (format_fixed 6 (float_sub (now w) t0))
                (kvp_string kvp))))).
Proof.
  unfold end_. generalize (kvp_string kvp) as ks. intros ks.
  destruct w as [[ts dl] n em].
  destruct ts, level; run_emitter.
Qed.

Lemma end_run_without_start (logger : Logger) (name : string)
    (level : option Z) (status_code : arg value) (kvp : AttributeSet) (w : World) :
  end_ logger name None level status_code kvp w
  = (Ok tt,
     after_call w
       (mkEmission logger (level_of level w)
          (exit_nodur_message name (kvp_string kvp)))).
Proof.
  unfold end_. generalize (kvp_string kvp) as ks. intros ks.
  destruct w as [[ts dl] n em].
  destruct ts, level; run_emitter.
Qed.

(** ** The decorators *)

Lemma end_with_keywords_run (logger : Logger) (name : string) (t0 : pyfloat)
    (level : option Z) (kvp : AttributeSet) (w : World) :
  end_with_keywords logger name t0 level kvp w
  = match dict_get "t0" kvp with
    | Some _ => (Raise TypeError, w)
    | None =>
        (Ok tt,
         after_call w (exit_emission logger name level (exit_attributes kvp) t0 w))
    end.
Proof.
  unfold end_with_keywords.
  destruct (dict_get "t0" kvp); [reflexivity|].
  rewrite end_run_with_start. reflexivity.
Qed.

Lemma wrap_func_run {A R : Type} (logger : Logger) (name : option string)
    (level : arg (option Z)) (kvp : AttributeSet) (func : Callable A R)
    (args : A) (w : World) :
  let func_name := name_or name (__name__ func) in
  let lvl := or_default level (Some logging_INFO) in
  wrap_func logger name level kvp func args w
  = match call func args (after_call w (entry_emission logger func_name lvl kvp w)) with
    | (Ok r, w2) => finished logger func_name lvl kvp (now w) r w2
    | (Raise e, w2) => (Raise e, w2)
    end.
Proof.
  intros func_name lvl. unfold wrap_func.
  fold func_name. fold lvl.
  unfold bind at 1. rewrite start_run. fold (entry_emission logger func_name lvl kvp w).
  unfold bind at 1.
  destruct (call func args _) as [[r|e] w2]; [|reflexivity].
  unfold bind, finished. rewrite end_with_keywords_run.
  destruct (dict_get "t0" kvp); reflexivity.
Qed.

Lemma wrap_method_run {S A R : Type} (logger : Logger) (name : option string)
    (level : arg (option Z)) (kvp : AttributeSet) (method : Callable (S * A) R)
    (self : S) (args : A) (w : World) :
  let func_name := name_or name (__name__ method) in
  let lvl := or_default level (Some logging_INFO) in
  wrap_method logger name level kvp method self args w
  = match call method (self, args)
            (after_call w (entry_emission logger func_name lvl kvp w)) with
    | (Ok r, w2) => finished logger func_name lvl kvp (now w) r w2
    | (Raise e, w2) => (Raise e, w2)
    end.
Proof.
  intros func_name lvl. unfold wrap_method.
  fold func_name. fold lvl.
  unfold bind at 1. rewrite start_run. fold (entry_emission logger func_name lvl kvp w).
  unfold bind at 1.
  destruct (call method (self, args) _) as [[r|e] w2]; [|reflexivity].
  unfold bind, finished. rewrite end_with_keywords_run.
  destruct (dict_get "t0" kvp); reflexivity.
Qed.

(** ** Properties of the emitters and the decorators *)

(** C7: [end] called without a start timestamp returns normally and
    hands the backend exactly [<name>.end ; <kvp>], with no duration
    field, where [<kvp>] is the fragment of the attribute set as
    section 4.1 of the spec describes it: for every name, attribute
    set, severity, status code and world (either template mode). *)
Theorem end_without_start_message (logger : Logger) (name : string)
    (level : option Z) (status_code : arg value) (kvp : AttributeSet) (w : World) :
  end_ logger name None level status_code kvp w
  = (Ok tt,
     {| globals := globals w;
        clock_reads := S (clock_reads w);
        emitted := (emitted w
                    ++ [mkEmission logger (level_of level w)
                          (name ++ ".end ; " ++ spec_fragment kvp)])%list |}).
Proof. rewrite end_run_without_start, kvp_string_spec. reflexivity. Qed.

(** C2, what the code does: with [include_timestamp] set, [start],
    [event] and [end] with a start timestamp put the rendered timestamp
    and a space in front of the message, while [end] without a start
    timestamp emits [<name>.end ; <kvp>] with nothing in front. *)
Theorem timestamp_mode_messages (logger : Logger) (name : string)
    (level : option Z) (status_code : arg value) (kvp : AttributeSet)
    (t0 : pyfloat) (dl : Z) (n : nat) (em : list Emission) :
  let w := mkWorld (mkGlobals true dl) n em in
  let stamp := format_timestamp (wall_clock n) in
  let emits (m : M unit) (msg : string) :=
    emitted (snd (m w)) = (em ++ [mkEmission logger (level_of level w) msg])%list in
  emits (start logger name level kvp ;; ret tt)
        (stamp ++ " " ++ name ++ ".begin ; " ++ kvp_string kvp) /\
  emits (event logger name level None kvp ;; ret tt)
        (stamp ++ " " ++ name ++ " ; " ++ kvp_string kvp) /\
  emits (end_ logger name (Some t0) level status_code kvp)
        (stamp ++ " " ++ name ++ ".end ("
           ++ format_fixed 6 (float_sub (wall_clock n) t0) ++ ") ; "
           ++ kvp_string kvp) /\
  emits (end_ logger name None level status_code kvp)
        (name ++ ".end ; " ++ kvp_string kvp).
Proof.
  intros w stamp emits. unfold emits, bind.
  rewrite start_run, (event_run logger name level None kvp w eq_refl),
    end_run_with_start, end_run_without_start.
  repeat split.
Qed.

(** C3, what the code does: the status code has no effect on a call of
    [end]: the result, the message, its severity and the world are the
    same for any two status codes, given or left out. *)
Theorem status_code_has_no_effect (logger : Logger) (name : string)
    (t0 : option pyfloat) (level : option Z) (s1 s2 : arg value)
    (kvp : AttributeSet) (w : World) :
  end_ logger name t0 level s1 kvp w = end_ logger name t0 level s2 kvp w.
Proof.
  destruct t0 as [t0|].
  - now rewrite !end_run_with_start.
  - now rewrite !end_run_without_start.
Qed.


(** C9 as amended: one call of [event] (with the default template),
    [start] or [end] returns normally, reads the clock exactly once,
    hands the backend exactly one message, at the severity supplied or
    else at the module-wide default, and leaves the module globals as
    they were. *)
Theorem one_emission_one_clock_read (logger : Logger) (name : string)
    (level : option Z) (t0 : option pyfloat) (status_code : arg value)
    (kvp : AttributeSet) (w : World) :
  let effect {T : Type} (m : M T) :=
    (exists v, fst (m w) = Ok v) /\
    globals (snd (m w)) = globals w /\
    clock_reads (snd (m w)) = S (clock_reads w) /\
    exists msg, emitted (snd (m w))
                = (emitted w ++ [mkEmission logger (level_of level w) msg])%list in
  effect (event logger name level None kvp) /\
  effect (start logger name level kvp) /\
  effect (end_ logger name t0 level status_code kvp).
Proof.
  intros effect. unfold effect.
  rewrite start_run, (event_run logger name level None kvp w eq_refl).
  repeat split; try (eexists; reflexivity).
  all: destruct t0 as [t0|];
    [rewrite end_run_with_start | rewrite end_run_without_start];
    try reflexivity; eexists; reflexivity.
Qed.

Lemma direct_start_level (logger : Logger) (fname : string) (kvp : AttributeSet)
    (w : World) :
  exists msg,
    emitted (snd (start logger fname None kvp w))
    = (emitted w ++ [mkEmission logger (DEFAULT_LEVEL (globals w)) msg])%list.
Proof. rewrite start_run. eexists; reflexivity. Qed.

Lemma direct_event_level (logger : Logger) (fname : string) (kvp : AttributeSet)
    (w : World) :
  exists msg,
    emitted (snd (event logger fname None None kvp w))
    = (emitted w ++ [mkEmission logger (DEFAULT_LEVEL (globals w)) msg])%list.
Proof.
  rewrite (event_run logger fname None None kvp w eq_refl).
  eexists; reflexivity.
Qed.

Lemma direct_end_level (logger : Logger) (fname : string) (t0 : option pyfloat)
    (status_code : arg value) (kvp : AttributeSet) (w : World) :
  exists msg,
    emitted (snd (end_ logger fname t0 None status_code kvp w))
    = (emitted w ++ [mkEmission logger (DEFAULT_LEVEL (globals w)) msg])%list.
Proof.
  destruct t0 as [t0|];
    [rewrite end_run_with_start | rewrite end_run_without_start];
    eexists; reflexivity.
Qed.

Lemma wrap_func_omitted_level {A R : Type} (logger : Logger)
    (name : option string) (kvp : AttributeSet) (func : Callable A R)
    (args : A) (w w2 : World) :
  (forall e,
     call func args
       (after_call w (entry_emission logger (name_or name (__name__ func))
                        (Some logging_INFO) kvp w)) = (Raise e, w2) ->
     wrap_func logger name Omitted kvp func args w = (Raise e, w2)) /\
  (forall r,
     call func args
       (after_call w (entry_emission logger (name_or name (__name__ func))
                        (Some logging_INFO) kvp w)) = (Ok r, w2) ->
     wrap_func logger name Omitted kvp func args w
     = finished logger (name_or name (__name__ func)) (Some logging_INFO) kvp
         (now w) r w2).
Proof.
  split; intros x H; rewrite wrap_func_run; simpl or_default;
    rewrite H; reflexivity.
Qed.

Lemma wrap_method_omitted_level {S A R : Type} (logger : Logger)
    (name : option string) (kvp : AttributeSet) (method : Callable (S * A) R)
    (self : S) (args : A) (w w2 : World) :
  (forall e,
     call method (self, args)
       (after_call w (entry_emission logger (name_or name (__name__ method))
                        (Some logging_INFO) kvp w)) = (Raise e, w2) ->
     wrap_method logger name Omitted kvp method self args w = (Raise e, w2)) /\
  (forall r,
     call method (self, args)
       (after_call w (entry_emission logger (name_or name (__name__ method))
                        (Some logging_INFO) kvp w)) = (Ok r, w2) ->
     wrap_method logger name Omitted kvp method self args w
     = finished logger (name_or name (__name__ method)) (Some logging_INFO) kvp
         (now w) r w2).
Proof.
  split; intros x H; rewrite wrap_method_run; simpl or_default;
    rewrite H; reflexivity.
Qed.

(** C10: a function or method decorated without a [level] logs its
    entry at [logging.INFO] and, when the original has returned, its
    exit at [logging.INFO] too (or raises [TypeError] with no exit
    message, when a keyword of the decorator is named [t0]), whatever
    [DEFAULT_LEVEL] has been reassigned to before the call, while
    [start], [event] and [end] called without a [level] log at the
    reassigned [DEFAULT_LEVEL]. *)
Theorem wrapper_level_ignores_default {S A R : Type} (l : Z) (logger : Logger)
    (name : option string) (fname : string) (t0 : option pyfloat)
    (kvp : AttributeSet) (func : Callable A R) (method : Callable (S * A) R)
    (self : S) (args : A) (w0 w2 : World) :
  let w := snd (set_DEFAULT_LEVEL l w0) in
  let direct {T : Type} (m : M T) :=
    exists msg,
      emitted (snd (m w)) = (emitted w ++ [mkEmission logger l msg])%list in
  let wrapped (fn : string) (original wrapper : M R) :=
    let entry := entry_emission logger fn (Some logging_INFO) kvp w in
    let exit_ :=
      exit_emission logger fn (Some logging_INFO) (exit_attributes kvp)
        (now w) w2 in
    em_level entry = logging_INFO /\
    em_level exit_ = logging_INFO /\
    (forall e, original (after_call w entry) = (Raise e, w2) ->
       wrapper w = (Raise e, w2)) /\
    (forall r, original (after_call w entry) = (Ok r, w2) ->
       wrapper w = match dict_get "t0" kvp with
                   | None => (Ok r, after_call w2 exit_)
                   | Some _ => (Raise TypeError, w2)
                   end) in
  direct (start logger fname None kvp) /\
  direct (event logger fname None None kvp) /\
  direct (end_ logger fname t0 None Omitted kvp) /\
  wrapped (name_or name (__name__ func)) (call func args)
    (wrap_func logger name Omitted kvp func args) /\
  wrapped (name_or name (__name__ method)) (call method (self, args))
    (wrap_method logger name Omitted kvp method self args).
Proof.
  intros w direct wrapped.
  split; [exact (direct_start_level logger fname kvp w)|].
  split; [exact (direct_event_level logger fname kvp w)|].
  split; [exact (direct_end_level logger fname t0 Omitted kvp w)|].
  split.
  - split; [reflexivity|]. split; [reflexivity|].
    exact (wrap_func_omitted_level logger name kvp func args w w2).
  - split; [reflexivity|]. split; [reflexivity|].
    exact (wrap_method_omitted_level logger name kvp method self args w w2).
Qed.

(** ** The duration field *)

Lemma digit_char_is_digit (d : Z) : 0 <= d < 10 -> is_digit (digit_char d) = true.
Proof.
  intros H.
  assert (E : d = 0 \/ d = 1 \/ d = 2 \/ d = 3 \/ d = 4 \/ d = 5 \/ d = 6
              \/ d = 7 \/ d = 8 \/ d = 9) by lia.
  repeat (destruct E as [->|E]; [reflexivity|]). subst d. reflexivity.
Qed.

Lemma low_digits_length (n : nat) (v : Z) (acc : string) :
  String.length (low_digits n v acc) = (n + String.length acc)%nat.
Proof.
  revert v acc. induction n as [|n IH]; intros v acc;
    cbn [low_digits]; [reflexivity|].
  rewrite IH. cbn [String.length]. lia.
Qed.

Lemma low_digits_all_digits (n : nat) (v : Z) (acc : string) :
  all_digits acc = true -> all_digits (low_digits n v acc) = true.
Proof.
  revert v acc. induction n as [|n IH]; intros v acc H;
    cbn [low_digits]; [assumption|].
  apply IH. unfold all_digits, PyStr.chars in *.
  cbn [list_ascii_of_string forallb].
  rewrite digit_char_is_digit by (apply Z.mod_pos_bound; lia).
  exact H.
Qed.

Lemma uint_all_digits (u : Decimal.uint) :
  all_digits (NilEmpty.string_of_uint u) = true.
Proof.
  unfold all_digits, PyStr.chars. induction u; simpl; auto.
Qed.

Lemma str_of_Z_nonneg (n : Z) :
  0 <= n -> str_of_Z n <> "" /\ all_digits (str_of_Z n) = true.
Proof.
  intros H. unfold str_of_Z.
  destruct n as [|p|p]; [split; [discriminate | reflexivity] | | lia].
  simpl. unfold NilZero.string_of_uint.
  destruct (Pos.to_uint p) eqn:E;
    (split; [discriminate | try reflexivity; rewrite <- E; apply uint_all_digits]).
Qed.

Lemma round_half_even_nonneg (num den : Z) :
  0 <= num -> 0 < den -> 0 <= round_half_even num den.
Proof.
  intros Hn Hd. unfold round_half_even.
  assert (0 <= num / den) by (apply Z.div_pos; lia).
  destruct (2 * (num mod den) ?= den); [destruct (Z.even (num / den))| |]; lia.
Qed.

Lemma scaled_round_nonneg (digits : nat) (m : positive) (e : Z) :
  0 <= scaled_round digits m e.
Proof.
  unfold scaled_round.
  assert (0 < 10 ^ Z.of_nat digits) by (apply Z.pow_pos_nonneg; lia).
  destruct (0 <=? e) eqn:E.
  - apply Z.leb_le in E.
    assert (0 < 2 ^ e) by (apply Z.pow_pos_nonneg; lia). nia.
  - apply Z.leb_gt in E.
    apply round_half_even_nonneg; [nia|].
    apply Z.pow_pos_nonneg; lia.
Qed.

Lemma fixed_str_shape (k : nat) (v : Z) :
  0 <= v ->
  exists ip fp : string,
    fixed_str (S k) v = ip ++ "." ++ fp /\
    ip <> "" /\ all_digits ip = true /\ all_digits fp = true /\
    String.length fp = S k.
Proof.
  intros H.
  assert (Hp : 0 < 10 ^ Z.of_nat (S k)) by (apply Z.pow_pos_nonneg; lia).
  destruct (str_of_Z_nonneg (v / 10 ^ Z.of_nat (S k))) as [Hne Hd].
  { apply Z.div_pos; lia. }
  exists (str_of_Z (v / 10 ^ Z.of_nat (S k))),
         (low_digits (S k) (v mod 10 ^ Z.of_nat (S k)) "").
  repeat split; try assumption.
  - now apply low_digits_all_digits.
  - rewrite low_digits_length. simpl. lia.
Qed.

Lemma format_fixed_shape (k : nat) (x : pyfloat) :
  float_is_finite x = true ->
  fixed_point_shape (S k) (float_sign x) (format_fixed (S k) x).
Proof.
  intros Hfin. unfold fixed_point_shape.
  destruct x as [s|s| |s m e]; try discriminate; simpl float_sign.
  - destruct (fixed_str_shape k 0) as (ip & fp & E & H); [lia|].
    exists ip, fp. split; [|exact H].
    unfold format_fixed. now rewrite E.
  - destruct (fixed_str_shape k (scaled_round (S k) m e)) as (ip & fp & E & H).
    { apply scaled_round_nonneg. }
    exists ip, fp. split; [|exact H].
    unfold format_fixed. now rewrite E.
Qed.

(** *** Binary64 arithmetic on timestamps *)























(** ** Callers of the emitters *)

Lemma bind_run_ok {A B : Type} (m : M A) (k : A -> M B) (w w' : World) (a : A) :
  m w = (Ok a, w') -> bind m k w = k a w'.
Proof. intros H. unfold bind. now rewrite H. Qed.

Ltac run_step :=
  first
    [ erewrite bind_run_ok by apply start_run
    | erewrite bind_run_ok by (apply event_run; reflexivity)
    | erewrite bind_run_ok by apply end_run_with_start
    | erewrite bind_run_ok by apply end_run_without_start
    | erewrite bind_run_ok by reflexivity ].

(** Two overlapping activities of one name give two entry and two exit
    messages, in call order, and each exit reports the time since its
    own start: the third reading minus the first, and the fourth minus
    the second. *)
Theorem overlapping_activities_paired (logger : Logger) (name : string)
    (level : option Z) (kvp_a kvp_b : AttributeSet) (w : World) :
  let mode := include_timestamp (globals w) in
  let emission (i : nat) (body : string) :=
    mkEmission logger (level_of level w)
      (stamped mode (format_timestamp (reading w i)) body) in
  let dur (i j : nat) := format_fixed 6 (float_sub (reading w j) (reading w i)) in
  (ta <- start logger name level kvp_a ;;
   tb <- start logger name level kvp_b ;;
   end_ logger name (Some ta) level Omitted kvp_a ;;
   end_ logger name (Some tb) level Omitted kvp_b) w
  = (Ok tt,
     {| globals := globals w;
        clock_reads := 4 + clock_reads w;
        emitted :=
          (emitted w
           ++ [ emission 0%nat (entry_message name (kvp_string kvp_a));
                emission 1%nat (entry_message name (kvp_string kvp_b));
                emission 2%nat (exit_message name (dur 0 2)%nat (kvp_string kvp_a));
                emission 3%nat (exit_message name (dur 1 3)%nat (kvp_string kvp_b))
              ])%list |}).
Proof.
  intros mode emission dur.
  do 3 run_step. rewrite end_run_with_start.
  unfold after_call, now, reading, emission, dur, mode, level_of.
  cbn [globals clock_reads emitted Nat.add].
  rewrite <- !app_assoc. reflexivity.
Qed.

(** The template mode is read when a message is formatted, not when the
    activity starts: with the flag assigned before [start] and again
    before [end], the entry message follows the first assignment and the
    exit message the second. *)
Theorem template_mode_is_read_per_call (b1 b2 : bool) (logger : Logger)
    (name : string) (level : option Z) (kvp : AttributeSet) (w : World) :
  (set_include_timestamp b1 ;;
   t0 <- start logger name level kvp ;;
   set_include_timestamp b2 ;;
   end_ logger name (Some t0) level Omitted kvp) w
  = (Ok tt,
     {| globals := {| include_timestamp := b2;
                      DEFAULT_LEVEL := DEFAULT_LEVEL (globals w) |};
        clock_reads := 2 + clock_reads w;
        emitted :=
          (emitted w
           ++ [ mkEmission logger (level_of level w)
                  (stamped b1 (format_timestamp (reading w 0))
                     (entry_message name (kvp_string kvp)));
                mkEmission logger (level_of level w)
                  (stamped b2 (format_timestamp (reading w 1))
                     (exit_message name
                        (format_fixed 6 (float_sub (reading w 1) (reading w 0)))
                        (kvp_string kvp))) ])%list |}).
Proof.
  do 3 run_step. rewrite end_run_with_start.
  unfold after_call, now, reading, level_of, set_include_timestamp.
  cbn [globals clock_reads emitted Nat.add snd include_timestamp DEFAULT_LEVEL].
  rewrite <- !app_assoc. reflexivity.
Qed.

(** [examples/basic.py] hands the backend three messages, at the default
    level: the entry of [program], the event, and the exit of [program]
    whose duration is the third clock reading minus the first (the event
    in between reads the clock too). *)
Theorem basic_example_messages (log : Logger) (file prog : string) (w : World) :
  let emission (i : nat) (body : string) :=
    mkEmission log (DEFAULT_LEVEL (globals w))
      (stamped (include_timestamp (globals w))
         (format_timestamp (reading w i)) body) in
  basic_example log file prog w
  = (Ok tt,
     {| globals := globals w;
        clock_reads := 3 + clock_reads w;
        emitted :=
          (emitted w
           ++ [ emission 0%nat
                  ("program.begin ; " ++ _format_kvp [("file", VStr file)])%string;
                emission 1%nat "one event ; ";
                emission 2%nat
                  ("program.end ("
                     ++ format_fixed 6 (float_sub (reading w 2) (reading w 0))
                     ++ ") ; " ++ _format_kvp [("file", VStr prog)])%string ])%list |}).
Proof.
  intros emission. unfold basic_example.
  do 2 run_step. rewrite end_run_with_start.
  unfold after_call, now, reading, level_of, emission.
  cbn [globals clock_reads emitted Nat.add].
  rewrite <- !app_assoc. reflexivity.
Qed.

(** Decorators stack, and the outer one does not see the name of the
    function: a function decorated twice without a [name], by
    decorators that have no keyword [t0], logs the outer activity as
    [func_wrapper] and the inner one under the function's name, the
    inner entry and exit nested inside the outer ones; the outer
    duration is counted from the outer start. *)
Theorem stacked_decorators (logger : Logger) (level : arg (option Z))
    {A R : Type} (kvp_out kvp_in : AttributeSet) (func : Callable A R)
    (args : A) (r : R) (w w2 : World) :
  let lvl := or_default level (Some logging_INFO) in
  let inner := decorate_func logger None level kvp_in func in
  let outer := decorate_func logger None level kvp_out inner in
  let fname := name_or None (__name__ func) in
  let w1 := after_call w (entry_emission logger "func_wrapper" lvl kvp_out w) in
  let w1' := after_call w1 (entry_emission logger fname lvl kvp_in w1) in
  let w3 :=
    after_call w2
      (exit_emission logger fname lvl (exit_attributes kvp_in) (now w1) w2) in
  dict_get "t0" kvp_out = None ->
  dict_get "t0" kvp_in = None ->
  call func args w1' = (Ok r, w2) ->
  call outer args w
  = (Ok r,
     after_call w3
       (exit_emission logger "func_wrapper" lvl (exit_attributes kvp_out)
          (now w) w3)).
Proof.
  intros lvl inner outer fname w1 w1' w3 Hout Hin H.
  unfold outer, inner, decorate_func in *. cbn [call].
  rewrite wrap_func_run. cbn [call __name__ name_or].
  rewrite wrap_func_run.
  unfold w1', w1, fname, lvl in H. rewrite H.
  unfold finished. rewrite Hin, Hout. reflexivity.
Qed.

(** ** More on the encoder *)

Lemma prefix_two (a b c : ascii) (s : string) :
  String.prefix (String a (String b "")) (String c s)
  = Ascii.eqb a c && String.prefix (String b "") s.
Proof.
  cbn [String.prefix].
  destruct (ascii_dec a c) as [->|N].
  - now rewrite Ascii.eqb_refl.
  - apply Ascii.eqb_neq in N. now rewrite N.
Qed.

Lemma replace_from_step (old new : string) (c : ascii) (rest : string) :
  PyStr.replace_from old new (String c rest) 0
  = if String.prefix old (String c rest)
    then new ++ PyStr.replace_from old new rest (Nat.pred (String.length old))
    else String c (PyStr.replace_from old new rest 0).
Proof. reflexivity. Qed.

(** An escaped text never starts with a comma. *)
Lemma escape_commas_head (s : string) :
  String.prefix "," (escape_commas s) = false.
Proof.
  destruct s as [|x s]; [reflexivity|].
  cbn [escape_commas].
  destruct (Ascii.eqb_spec x ",") as [E|N].
  - reflexivity.
  - rewrite prefix_char. apply Ascii.eqb_neq. congruence.
Qed.

Lemma unescape_escape (s : string) :
  PyStr.replace "\," "," (escape_commas s) = s.
Proof.
  unfold PyStr.replace.
  induction s as [|x s IH]; [reflexivity|].
  cbn [escape_commas].
  destruct (Ascii.eqb_spec x ",") as [E|N].
  - subst x. rewrite replace_from_step, prefix_two, prefix_char.
    rewrite !Ascii.eqb_refl.
    cbn [andb String.length Nat.pred append PyStr.replace_from].
    now rewrite IH.
  - rewrite replace_from_step, prefix_two, escape_commas_head, andb_false_r.
    now rewrite IH.
Qed.

Lemma join_app (sep : string) (l1 l2 : list string) :
  l1 <> [] -> l2 <> [] ->
  PyStr.join sep (l1 ++ l2) = PyStr.join sep l1 ++ sep ++ PyStr.join sep l2.
Proof.
  unfold PyStr.join. intros N1 N2.
  induction l1 as [|a l1 IH]; [congruence|].
  destruct l1 as [|b l1].
  - destruct l2 as [|c l2]; [congruence | reflexivity].
  - change (String.concat sep ((a :: b :: l1) ++ l2))
      with (a ++ sep ++ String.concat sep ((b :: l1) ++ l2)).
    rewrite IH by discriminate.
    change (String.concat sep (a :: b :: l1))
      with (a ++ sep ++ String.concat sep (b :: l1)).
    now rewrite !str_app_assoc.
Qed.

(** Every string value but the empty one comes back from its rendering
    when each backslash-comma pair is turned into a comma again. *)
Theorem unescape_recovers_value (k s : string) :
  s <> "" ->
  exists text,
    _format_kvp [(k, VStr s)] = k ++ _KVSEP ++ text /\
    PyStr.replace "\," "," text = s.
Proof.
  intros NE. exists (escape_commas s). split.
  - rewrite format_kvp_single, kvp_value_escaped by exact NE. reflexivity.
  - apply unescape_escape.
Qed.

(** The encoder does not escape the backslash, so the fragment does not
    tell where a value ends: a value that ends in a backslash followed
    by a second attribute is written exactly like one longer value that
    has a comma. *)
Theorem backslash_makes_fragment_ambiguous (k1 a k2 b : string) :
  ~ has_char "," k2 -> b <> "" ->
  _format_kvp [(k1, VStr (a ++ "\")); (k2, VStr b)]
  = _format_kvp [(k1, VStr (a ++ "," ++ k2 ++ "=" ++ b))].
Proof.
  intros Hk Hb.
  rewrite format_kvp_single.
  change (_format_kvp [(k1, VStr (a ++ "\")); (k2, VStr b)])
    with ((k1 ++ "=" ++ py_str (kvp_value _KVPSEP (VStr (a ++ "\"))))
          ++ "," ++ k2 ++ "=" ++ py_str (kvp_value _KVPSEP (VStr b))).
  rewrite !kvp_value_escaped.
  - rewrite !escape_commas_app, (escape_commas_clean k2 Hk).
    now rewrite !str_app_assoc.
  - destruct a; discriminate.
  - exact Hb.
  - destruct a; discriminate.
Qed.

(** Attributes are encoded one by one: the fragment of two attribute
    sets put one after the other is the two fragments with the pair
    separator between them. *)
Theorem format_kvp_app (d1 d2 : AttributeSet) :
  d1 <> [] -> d2 <> [] ->
  _format_kvp (d1 ++ d2)%list = _format_kvp d1 ++ _KVPSEP ++ _format_kvp d2.
Proof.
  intros N1 N2. rewrite !format_kvp_entries, map_app.
  apply join_app.
  - destruct d1; [congruence | discriminate].
  - destruct d2; [congruence | discriminate].
Qed.

(** ** [event] with a template of the caller *)

(** The keywords [event] passes to [format]. *)
Lemma event_run_custom (logger : Logger) (name : string) (level : option Z)
    (f : string) (kvp : AttributeSet) (w : World) :
  f <> "" ->
  event logger name level (Some f) kvp w
  = match py_format f (event_keywords name kvp w) with
    | Ok msg =>
        (Ok (now w), after_call w (mkEmission logger (level_of level w) msg))
    | Raise e => (Raise e, clock_read w)
    end.
Proof.
  intros NE. unfold event, event_keywords.
  assert (Hlen : Nat.eqb (String.length f) 0 = false)
    by (destruct f; [congruence | reflexivity]).
  rewrite Hlen.
  unfold bind, time_time, ret, lift, now, clock_read.
  destruct (py_format f _) as [msg|e]; [|reflexivity].
  destruct level; reflexivity.
Qed.

Lemma map_result_ok {A B : Type} (f : A -> B) (r : result A) (b : B) :
  map_result f r = Ok b -> exists a, r = Ok a /\ b = f a.
Proof. destruct r as [a|e]; simpl; intros H; [|discriminate]. exists a. split; congruence. Qed.

(** Text without braces is copied. *)
Lemma format_from_text (d : list (string * value)) (s : string) :
  ~ has_char "{" s -> ~ has_char "}" s -> format_from d InText s = Ok s.
Proof.
  induction s as [|c s IH]; intros Ho Hc; [reflexivity|].
  rewrite has_char_cons in Ho, Hc. cbn [format_from].
  destruct (Ascii.eqb_spec c "{") as [E|_]; [tauto|].
  destruct (Ascii.eqb_spec c "}") as [E|_]; [tauto|].
  rewrite IH by tauto. reflexivity.
Qed.

(** A template that was formatted to the end leaves the formatter
    between fields: what follows it is formatted on its own. *)
Lemma format_from_app (d : list (string * value)) (pre s : string) :
  forall (st : fmt_state) (out : string),
  format_from d st pre = Ok out ->
  format_from d st (pre ++ s)
  = map_result (append out) (format_from d InText s).
Proof.
  induction pre as [|c pre IH]; intros st out H.
  - destruct st; try discriminate. injection H as <-.
    cbn [append]. destruct (format_from d InText s); reflexivity.
  - cbn [append]. cbn [format_from] in H |- *.
    destruct st as [| |fld|].
    + destruct (Ascii.eqb c "{"); [now apply IH|].
      destruct (Ascii.eqb c "}"); [now apply IH|].
      apply map_result_ok in H as [o [H ->]].
      rewrite (IH _ _ H).
      destruct (format_from d InText s); reflexivity.
    + destruct (Ascii.eqb c "{").
      * apply map_result_ok in H as [o [H ->]].
        rewrite (IH _ _ H).
        destruct (format_from d InText s); reflexivity.
      * destruct (Ascii.eqb c "}"); [discriminate | now apply IH].
    + destruct (Ascii.eqb c "}").
      * destruct (all_digits fld); [discriminate|].
        destruct (dict_get fld d) as [v|]; [|discriminate].
        apply map_result_ok in H as [o [H ->]].
        rewrite (IH _ _ H).
        destruct (format_from d InText s); cbn [map_result];
          [now rewrite str_app_assoc | reflexivity].
      * destruct (Ascii.eqb c "{"); [discriminate | now apply IH].
    + destruct (Ascii.eqb c "}"); [|discriminate].
      apply map_result_ok in H as [o [H ->]].
      rewrite (IH _ _ H).
      destruct (format_from d InText s); reflexivity.
Qed.

(** Inside a field, the characters up to the closing brace are the
    name. *)
Lemma format_from_field (d : list (string * value)) (fld rest : string) :
  forall acc : string,
  ~ has_char "{" fld -> ~ has_char "}" fld ->
  format_from d (InField acc) (fld ++ String "}" rest)
  = if all_digits (acc ++ fld) then Raise IndexError
    else match dict_get (acc ++ fld) d with
         | Some v => map_result (append (py_str v)) (format_from d InText rest)
         | None => Raise (KeyError (acc ++ fld))
         end.
Proof.
  induction fld as [|c fld IH]; intros acc Ho Hc.
  - cbn [append format_from]. rewrite Ascii.eqb_refl, str_app_nil_r. reflexivity.
  - rewrite has_char_cons in Ho, Hc. cbn [append format_from].
    destruct (Ascii.eqb_spec c "}") as [E|_]; [tauto|].
    destruct (Ascii.eqb_spec c "{") as [E|_]; [tauto|].
    rewrite IH by tauto.
    rewrite str_app_assoc. reflexivity.
Qed.

Lemma plain_name_no_char (c : ascii) (s : string) :
  plain_name s = true -> In c field_markup -> ~ has_char c s.
Proof.
  unfold plain_name, has_char. intros H Hin Hs.
  rewrite forallb_forall in H. specialize (H c Hs).
  apply negb_true_iff in H.
  assert (T : existsb (Ascii.eqb c) field_markup = true).
  { apply existsb_exists. exists c. split; [assumption | apply Ascii.eqb_refl]. }
  congruence.
Qed.

(** A template of the caller without braces is logged as it is: neither
    the name of the event nor the attributes reach the message. *)
Theorem event_literal_template (logger : Logger) (name : string)
    (level : option Z) (f : string) (kvp : AttributeSet) (w : World) :
  f <> "" -> ~ has_char "{" f -> ~ has_char "}" f ->
  event logger name level (Some f) kvp w
  = (Ok (now w), after_call w (mkEmission logger (level_of level w) f)).
Proof.
  intros NE Ho Hc. rewrite event_run_custom by exact NE.
  unfold py_format. now rewrite format_from_text.
Qed.

(** A template of the caller can use the fields [timestamp], [func_name]
    and [kvp] and no other: at the first field of another name, [event]
    raises [KeyError] with that name, after it has read the clock and
    before anything is logged. *)
Theorem event_unknown_field (logger : Logger) (name : string)
    (level : option Z) (pre out field rest : string) (kvp : AttributeSet)
    (w : World) :
  py_format pre (event_keywords name kvp w) = Ok out ->
  field <> "" -> plain_name field = true -> all_digits field = false ->
  ~ In field ["timestamp"; "func_name"; "kvp"] ->
  event logger name level (Some (pre ++ "{" ++ field ++ "}" ++ rest)) kvp w
  = (Raise (KeyError field), clock_read w).
Proof.
  intros Hpre NE Hplain Hdig Hkey.
  assert (Ho : ~ has_char "{" field)
    by (apply plain_name_no_char; [assumption | simpl; tauto]).
  assert (Hc : ~ has_char "}" field)
    by (apply plain_name_no_char; [assumption | simpl; tauto]).
  rewrite event_run_custom.
  2:{ destruct pre; discriminate. }
  unfold py_format in *. rewrite (format_from_app _ _ _ _ _ Hpre).
  destruct field as [|c field]; [congruence|].
  rewrite has_char_cons in Ho, Hc.
  cbn [append format_from]. rewrite Ascii.eqb_refl.
  destruct (Ascii.eqb_spec c "{") as [E|_]; [tauto|].
  destruct (Ascii.eqb_spec c "}") as [E|_]; [tauto|].
  rewrite format_from_field by tauto.
  cbn [append]. rewrite Hdig.
  assert (Hget : dict_get (String c field) (event_keywords name kvp w) = None).
  { unfold event_keywords. cbn [dict_get].
    repeat match goal with
    | |- context [String.eqb ?k (String c field)] =>
        destruct (String.eqb_spec k (String c field)) as [E|_];
        [exfalso; apply Hkey; rewrite <- E; simpl; tauto|]
    end.
    reflexivity. }
  rewrite Hget. reflexivity.
Qed.

End Logutil.

Arguments __name__ {A R} c.
Arguments call {A R} c a.

(** ** The program on the sample platform *)

Lemma all_digits_no_char (c : ascii) (s : string) :
  is_digit c = false -> all_digits s = true -> ~ has_char c s.
Proof.
  intros Hc Hs H. unfold all_digits in Hs. rewrite forallb_forall in Hs.
  specialize (Hs c H). congruence.
Qed.

Lemma sample_float_str_no_comma (x : pyfloat) :
  ~ has_char "," (sample_float_str x).
Proof.
  unfold sample_float_str.
  destruct (float_is_finite x) eqn:Hfin.
  - destruct (format_fixed_shape 0 x Hfin) as (ip & fp & E & _ & Hip & Hfp & _).
    rewrite E. rewrite !has_char_app.
    intros [H|[H|[H|H]]].
    + destruct (float_sign x); unfold has_char in H; simpl in H;
        intuition discriminate.
    + revert H. now apply all_digits_no_char.
    + unfold has_char in H; simpl in H; intuition discriminate.
    + revert H. now apply all_digits_no_char.
  - destruct x as [s|s| |s m e]; try discriminate;
      try destruct s; unfold has_char; simpl; intuition discriminate.
Qed.

(** The attribute set of the examples below. *)
Definition sample_attributes : AttributeSet :=
  [ ("n", VInt 5); ("s", VStr "a=b"); ("e", VStr "");
    ("x", VFloat (float_of_Z 2)); ("ok", VBool true); ("z", VNone) ].

(** A function that returns its argument plus one, and one that raises. *)
Definition sample_succ : Callable Z Z :=
  {| __name__ := "succ"; call := fun x => ret (x + 1) |}.
Definition sample_method : Callable (unit * Z) Z :=
  {| __name__ := "method"; call := fun sx => ret (snd sx + 1) |}.

Ltac each_entry :=
  let k := fresh "k" in
  let v := fresh "v" in
  let H := fresh "H" in
  intros k v H; simpl in H;
  repeat (destruct H as [H|H]; [inversion H; subst; clear H|]);
  try contradiction;
  unfold has_char; simpl; intuition discriminate.

(** Witness of C1: the sample attribute set comes back from its
    fragment, the empty string as two quotes. *)
Lemma decode_format_kvp_witness :
  decode_kvp (_format_kvp sample_float_str sample_attributes)
  = [ ("n", "5"); ("s", "a=b"); ("e", "''"); ("x", "2.0");
      ("ok", "True"); ("z", "None") ] /\
  roundtrip sample_float_str sample_attributes.
Proof.
  apply (decode_format_kvp sample_float_str sample_attributes).
  - exact sample_float_str_no_comma.
  - unfold names_free_of. each_entry.
  - unfold names_free_of. each_entry.
  - unfold strings_free_of. each_entry.
  - discriminate.
Defined.

(** Counterexample to C1 as stated: the empty set has no string value
    with the separator; its fragment is the empty string, which splits
    into one empty piece, so what comes back is one pair of empty
    strings and not the empty set. *)
Lemma roundtrip_fails_on_empty_set :
  strings_free_of "," [] /\
  _format_kvp sample_float_str [] = "" /\
  decode_kvp (_format_kvp sample_float_str []) = [("", "")] /\
  ~ roundtrip sample_float_str [].
Proof.
  split; [|split; [|split]].
  - intros k s H. destruct H.
  - reflexivity.
  - reflexivity.
  - unfold roundtrip. intros P.
    apply Permutation_sym, Permutation_nil in P. discriminate P.
Qed.

(** The caller contract on names is needed: an attribute name with the
    separator does not come back. *)
Lemma roundtrip_needs_clean_names :
  decode_kvp (_format_kvp sample_float_str [("a,b", VInt 1)])
  = [("a", ""); ("b", "1")].
Proof. reflexivity. Qed.

(** Witness of C4. *)
Lemma empty_string_distinct_witness :
  _format_kvp sample_float_str [("k", VStr "")] = "k=''" /\
  _format_kvp sample_float_str [("k", VStr "x")]
  <> _format_kvp sample_float_str [("k", VStr "")].
Proof.
  split.
  - exact (proj1 (empty_string_distinct sample_float_str "k" "x")).
  - apply (proj2 (empty_string_distinct sample_float_str "k" "x"));
      discriminate.
Defined.

(** Counterexample to C4 as stated: the string of two quotes is not
    empty and is encoded like the empty string. *)
Lemma two_quotes_encode_like_empty :
  "''" <> "" /\
  _format_kvp sample_float_str [("k", VStr "''")]
  = _format_kvp sample_float_str [("k", VStr "")].
Proof. split; [discriminate | reflexivity]. Qed.







(** Witness of C7: [end] without a start timestamp, with a status code
    and three attributes. *)
Lemma end_without_start_message_witness :
  end_ sample_clock sample_isoformat sample_float_str
    "log" "job" None None (Given (VInt 3))
    [("a", VInt 1); ("s", VStr "x,y"); ("e", VStr "")] initial_world
  = (Ok tt,
     {| globals := initial_globals;
        clock_reads := 1;
        emitted := [ mkEmission "log" 20 "job.end ; a=1,s=x\,y,e=''" ] |}).
Proof.
  rewrite end_without_start_message. vm_compute. reflexivity.
Defined.

(** Counterexample to C9 as stated: a call of [end] reads the clock
    too, with or without a start timestamp. *)
Lemma end_reads_the_clock :
  clock_reads initial_world = 0%nat /\
  clock_reads (snd (end_ sample_clock sample_isoformat sample_float_str
                      "log" "job" None None Omitted [] initial_world))
  = 1%nat /\
  clock_reads (snd (end_ sample_clock sample_isoformat sample_float_str
                      "log" "job" (Some (float_of_Z 1699999995)) None Omitted
                      [] initial_world))
  = 1%nat.
Proof. repeat split; vm_compute; reflexivity. Qed.

(** Witness of C10: after [DEFAULT_LEVEL] is set to [10], a direct
    [start] logs at [10] while a decorated function still logs its entry
    and its exit at [20]. *)
Lemma wrapper_level_ignores_default_witness :
  (exists msg,
     emitted (snd (start sample_clock sample_isoformat sample_float_str
                     "log" "job" None []
                     (snd (set_DEFAULT_LEVEL 10 initial_world))))
     = [mkEmission "log" 10 msg]) /\
  wrap_func sample_clock sample_isoformat sample_float_str
    "log" None Omitted [] sample_succ 4
    (snd (set_DEFAULT_LEVEL 10 initial_world))
  = (Ok 5,
     {| globals := {| include_timestamp := true; DEFAULT_LEVEL := 10 |};
        clock_reads := 2;
        emitted :=
          [ mkEmission "log" 20 "2023-11-14T22:13:20 succ.begin ; ";
            mkEmission "log" 20
              "2023-11-14T22:13:25 succ.end (5.000000) ; " ] |}).
Proof.
  pose (w := snd (set_DEFAULT_LEVEL 10 initial_world)).
  destruct (wrapper_level_ignores_default sample_clock sample_isoformat
              sample_float_str 10 "log" None "job" None [] sample_succ
              sample_method tt 4 initial_world
              (after_call w
                 (entry_emission sample_clock sample_isoformat
                    sample_float_str "log" "succ" (Some logging_INFO) [] w)))
    as (Hstart & _ & _ & (_ & _ & _ & Hok) & _).
  split.
  - exact Hstart.
  - rewrite (Hok 5 eq_refl). vm_compute. reflexivity.
Defined.

(** ** Callers of the emitters, on the sample platform *)

(** Witness of [stacked_decorators]: [succ] decorated twice. *)
Lemma stacked_decorators_witness :
  call (decorate_func sample_clock sample_isoformat sample_float_str
          "log" None Omitted [("o", VInt 1)]
          (decorate_func sample_clock sample_isoformat sample_float_str
             "log" None Omitted [("i", VInt 2)] sample_succ))
       4 initial_world
  = (Ok 5,
     {| globals := initial_globals;
        clock_reads := 4;
        emitted :=
          [ mkEmission "log" 20 "2023-11-14T22:13:20 func_wrapper.begin ; o=1";
            mkEmission "log" 20 "2023-11-14T22:13:25 succ.begin ; i=2";
            mkEmission "log" 20 "2023-11-14T22:13:30 succ.end (5.000000) ; i=2";
            mkEmission "log" 20
              "2023-11-14T22:13:35 func_wrapper.end (15.000000) ; o=1" ] |}).
Proof.
  pose (w1 := after_call initial_world
          (entry_emission sample_clock sample_isoformat sample_float_str
             "log" "func_wrapper" (Some logging_INFO) [("o", VInt 1)]
             initial_world)).
  pose (w1' := after_call w1
          (entry_emission sample_clock sample_isoformat sample_float_str
             "log" "succ" (Some logging_INFO) [("i", VInt 2)] w1)).
  rewrite (stacked_decorators sample_clock sample_isoformat sample_float_str
             "log" Omitted [("o", VInt 1)] [("i", VInt 2)] sample_succ
             4 5 initial_world w1' eq_refl eq_refl eq_refl).
  vm_compute. reflexivity.
Defined.

(** ** [configure] *)

Ltac run_configure :=
  unfold configure, configure_file, try_except, cbind, set_is_yaml,
    get_is_yaml, platform_call, cret, craise;
  cbn [is_yaml calls negb fst snd app].

(** Whatever goes wrong when logging is configured from a file, the
    caller sees an [IOError] whose text starts with the name of the
    file; no other exception leaves the path branch. *)
Theorem configure_file_errors_are_IOError {Obj : Type} (env : Platform Obj)
    (path : string) :
  match fst (configure env (CfgPath path)) with
  | Done _ => True
  | Failed e => exists err, e = IOError (configure_error path err)
  end.
Proof.
  unfold configure, configure_file.
  unfold try_except at 1.
  match goal with
  | |- context [match ?body ?s with _ => _ end] => destruct (body s) as [[u|e] s']
  end; cbn [fst]; [exact I | exists e; reflexivity].
Qed.

(** For a path that ends in [.yaml], [fileConfig] is never tried.
    Without the YAML package nothing is called at all, and a file that
    is not YAML is an error; in both cases the reason is wrapped into
    the error of [configure]. *)
Theorem yaml_suffix_never_tries_fileConfig {Obj : Type} (env : Platform Obj)
    (path : string) :
  PyStr.endswith ".yaml" path = true ->
  (forall p, ~ In (fileConfig_call p) (snd (configure env (CfgPath path)))) /\
  (yaml env = None ->
   configure env (CfgPath path)
   = (Failed (IOError (configure_error path (IOError yaml_missing_message))),
      [])) /\
  (forall load m,
     yaml env = Some load -> load path = Failed (YAMLError m) ->
     configure env (CfgPath path)
     = (Failed (IOError (configure_error path (IOError "Cannot parse as YAML"))),
        [yaml_load_call path])).
Proof.
  intros Hy. split; [|split].
  - intros p. run_configure. rewrite Hy.
    destruct (yaml env) as [load|]; cbn [fst snd calls is_yaml].
    + destruct (load path) as [o|e]; cbn [fst snd calls is_yaml app].
      * destruct (dictConfig env o) as [u|e]; cbn [fst snd calls is_yaml negb].
        -- simpl. intros [H|[H|[]]]; discriminate.
        -- destruct e; cbn [fst snd calls is_yaml negb];
             simpl; intros [H|[H|[]]]; discriminate.
      * destruct e; cbn [fst snd calls is_yaml negb];
          simpl; intros [H|[]]; discriminate.
    + simpl. tauto.
  - intros Hn. run_configure. rewrite Hy, Hn. reflexivity.
  - intros load m Hl Hp. run_configure. rewrite Hy, Hl, Hp. reflexivity.
Qed.

(** Once the YAML loader has returned an object, that object is the
    configuration: it is handed to [dictConfig], and when [dictConfig]
    rejects it the call fails with that reason; [fileConfig] is not
    tried, whatever the name of the file. *)
Theorem parsed_yaml_is_final {Obj : Type} (env : Platform Obj)
    (path : string) (load : string -> outcome Obj) (cfgdict : Obj) :
  yaml env = Some load -> load path = Done cfgdict ->
  snd (configure env (CfgPath path))
  = [yaml_load_call path; dictConfig_call cfgdict] /\
  (dictConfig env cfgdict = Done tt ->
   fst (configure env (CfgPath path)) = Done tt) /\
  (forall e, dictConfig env cfgdict = Failed e ->
     (forall m, e <> YAMLError m) ->
     fst (configure env (CfgPath path))
     = Failed (IOError (configure_error path e))).
Proof.
  intros Hl Hp. split; [|split].
  - run_configure. rewrite Hl, Hp. cbn [fst snd calls is_yaml].
    destruct (dictConfig env cfgdict) as [u|e]; [reflexivity|].
    destruct e; try reflexivity.
    destruct (PyStr.endswith ".yaml" path); reflexivity.
  - intros Hd. run_configure. rewrite Hl, Hp. cbn [fst snd calls is_yaml].
    rewrite Hd. reflexivity.
  - intros e Hd Hne. run_configure. rewrite Hl, Hp. cbn [fst snd calls is_yaml].
    rewrite Hd.
    destruct e; try reflexivity. destruct (Hne msg eq_refl).
Qed.

(** An error of the loader that is not a YAML error (the file cannot be
    opened, say) ends the call at once, for any name of the file:
    [fileConfig] is not tried. *)
Theorem load_error_is_final {Obj : Type} (env : Platform Obj)
    (path : string) (load : string -> outcome Obj) (e : config_exn) :
  yaml env = Some load -> load path = Failed e ->
  (forall m, e <> YAMLError m) ->
  configure env (CfgPath path)
  = (Failed (IOError (configure_error path e)), [yaml_load_call path]).
Proof.
  intros Hl Hp Hne. run_configure. rewrite Hl, Hp.
  destruct e; try reflexivity. destruct (Hne msg eq_refl).
Qed.

(** For a path that does not end in [.yaml], when the YAML package is
    missing or the file is not YAML, the outcome is the one of
    [fileConfig]: success, or an [IOError] that names the file, with the
    text that neither format fits when [fileConfig] could not parse
    it. *)
Theorem fallback_to_fileConfig {Obj : Type} (env : Platform Obj)
    (path : string) :
  PyStr.endswith ".yaml" path = false ->
  (yaml env = None \/
   exists load m, yaml env = Some load /\ load path = Failed (YAMLError m)) ->
  configure env (CfgPath path)
  = (match fileConfig env path with
     | Done u => Done u
     | Failed (ConfigParserError _) =>
         Failed (IOError (configure_error path
           (IOError "Cannot parse as either YAML or ConfigParse format")))
     | Failed e => Failed (IOError (configure_error path e))
     end,
     match yaml env with
     | None => [fileConfig_call path]
     | Some _ => [yaml_load_call path; fileConfig_call path]
     end).
Proof.
  intros Hy [Hn | [load [m [Hl Hp]]]]; run_configure; rewrite Hy.
  - rewrite Hn. cbn [fst snd calls is_yaml negb app].
    destruct (fileConfig env path) as [u|e]; [reflexivity|].
    destruct e; reflexivity.
  - rewrite Hl, Hp. cbn [fst snd calls is_yaml negb app].
    destruct (fileConfig env path) as [u|e]; [reflexivity|].
    destruct e; reflexivity.
Qed.

(** A platform with the YAML package: [logging.yaml] holds a logging
    dictionary, [notes.txt] is YAML but no logging dictionary,
    [absent.conf] cannot be opened, and any other file is not YAML;
    [logging.ini] is the one file [fileConfig] accepts. *)
Definition sample_yaml_load (path : string) : outcome string :=
  if String.eqb path "logging.yaml" then Done "version: 1"
  else if String.eqb path "notes.txt" then Done "just text"
  else if String.eqb path "absent.conf"
       then Failed (IOError "[Errno 2] No such file or directory: 'absent.conf'")
  else Failed (YAMLError "mapping values are not allowed here").

Definition sample_platform : Platform string :=
  {| yaml := Some sample_yaml_load;
     dictConfig := fun cfgdict =>
       if String.eqb cfgdict "version: 1" then Done tt
       else Failed (OtherException "dictionary doesn't specify a version");
     fileConfig := fun path =>
       if String.eqb path "logging.ini" then Done tt
       else Failed (ConfigParserError "File contains no section headers.") |}.

(** Witness of [yaml_suffix_never_tries_fileConfig]: a [.yaml] file that
    is not YAML. *)
Lemma yaml_suffix_never_tries_fileConfig_witness :
  configure sample_platform (CfgPath "broken.yaml")
  = (Failed (IOError (configure_error "broken.yaml"
                        (IOError "Cannot parse as YAML"))),
     [yaml_load_call "broken.yaml"]).
Proof.
  apply (proj2 (proj2 (yaml_suffix_never_tries_fileConfig
                         sample_platform "broken.yaml" eq_refl))
           sample_yaml_load "mapping values are not allowed here");
    reflexivity.
Defined.

(** Witness of [parsed_yaml_is_final]: a text file that is YAML. *)
Lemma parsed_yaml_is_final_witness :
  snd (configure sample_platform (CfgPath "notes.txt"))
  = [yaml_load_call "notes.txt"; dictConfig_call "just text"] /\
  fst (configure sample_platform (CfgPath "notes.txt"))
  = Failed (IOError (configure_error "notes.txt"
              (OtherException "dictionary doesn't specify a version"))).
Proof.
  destruct (parsed_yaml_is_final sample_platform "notes.txt"
              sample_yaml_load "just text" eq_refl eq_refl) as [Hc [_ He]].
  split; [exact Hc|].
  apply He; [reflexivity | intros m; discriminate].
Defined.

(** Witness of [load_error_is_final]: a file that cannot be opened. *)
Lemma load_error_is_final_witness :
  configure sample_platform (CfgPath "absent.conf")
  = (Failed (IOError (configure_error "absent.conf"
       (IOError "[Errno 2] No such file or directory: 'absent.conf'"))),
     [yaml_load_call "absent.conf"]).
Proof.
  apply (load_error_is_final sample_platform "absent.conf" sample_yaml_load).
  - reflexivity.
  - reflexivity.
  - intros m. discriminate.
Defined.

(** Witness of [fallback_to_fileConfig]: a ConfigParser file. *)
Lemma fallback_to_fileConfig_witness :
  configure sample_platform (CfgPath "logging.ini")
  = (Done tt, [yaml_load_call "logging.ini"; fileConfig_call "logging.ini"]).
Proof.
  apply (fallback_to_fileConfig sample_platform "logging.ini" eq_refl).
  right. exists sample_yaml_load, "mapping values are not allowed here".
  split; reflexivity.
Defined.

(** ** The encoder and [event], on the sample platform *)

(** Witness of [unescape_recovers_value]. *)
Lemma unescape_recovers_value_witness :
  exists text,
    _format_kvp sample_float_str [("k", VStr "a,b")] = "k" ++ _KVSEP ++ text /\
    PyStr.replace "\," "," text = "a,b".
Proof.
  apply (unescape_recovers_value sample_float_str "k" "a,b"). discriminate.
Defined.

(** Witness of [backslash_makes_fragment_ambiguous]: a path that ends in
    a backslash. *)
Lemma backslash_makes_fragment_ambiguous_witness :
  _format_kvp sample_float_str [("dir", VStr ("C:" ++ "\")); ("n", VStr "1")]
  = _format_kvp sample_float_str [("dir", VStr ("C:" ++ "," ++ "n" ++ "=" ++ "1"))].
Proof.
  apply (backslash_makes_fragment_ambiguous sample_float_str "dir" "C:" "n" "1").
  - unfold has_char. simpl. intuition discriminate.
  - discriminate.
Defined.

(** Witness of [format_kvp_app]. *)
Lemma format_kvp_app_witness :
  _format_kvp sample_float_str ([("a", VInt 1)] ++ [("b", VStr "")])%list
  = _format_kvp sample_float_str [("a", VInt 1)] ++ _KVPSEP
    ++ _format_kvp sample_float_str [("b", VStr "")].
Proof.
  apply (format_kvp_app sample_float_str); discriminate.
Defined.

(** Witness of [event_literal_template]. *)
Lemma event_literal_template_witness :
  event sample_clock sample_isoformat sample_float_str
    "log" "ignored" None (Some "tick") [("n", VInt 1)] initial_world
  = (Ok (sample_clock 0),
     {| globals := initial_globals;
        clock_reads := 1;
        emitted := [mkEmission "log" 20 "tick"] |}).
Proof.
  apply (event_literal_template sample_clock sample_isoformat sample_float_str
           "log" "ignored" None "tick" [("n", VInt 1)] initial_world).
  - discriminate.
  - unfold has_char. simpl. intuition discriminate.
  - unfold has_char. simpl. intuition discriminate.
Defined.

(** Witness of [event_unknown_field]: an event template that asks for a
    duration. *)
Lemma event_unknown_field_witness :
  event sample_clock sample_isoformat sample_float_str
    "log" "job" None (Some "{func_name} took {dur}s") [] initial_world
  = (Raise (KeyError "dur"),
     {| globals := initial_globals; clock_reads := 1; emitted := [] |}).
Proof.
  apply (event_unknown_field sample_clock sample_isoformat sample_float_str
           "log" "job" None "{func_name} took " "job took " "dur" "s"
           [] initial_world).
  - reflexivity.
  - discriminate.
  - reflexivity.
  - reflexivity.
  - simpl. intuition discriminate.
Defined.
